(** * OTP issuance and verification (server.js)

    A shallow embedding of the two request handlers of [server.js],
    [sendOtp] (POST /sendOtp) and [verifyOtp] (POST /verifyOtp), over an
    in-memory model of the collaborators they call: the Firestore [users]
    collection, the mail transport, the identity provider and the console.

    Modelling conventions.
    - A JavaScript value of the request body or of a document field is a
      [value].  Numbers are the integers ([VNum]); their [toString] is the
      decimal numeral, which is JavaScript's up to 2^53 in magnitude.
      Arrays, objects and fractional numbers are outside the model.  [VTimestamp ms] is a Firestore [Timestamp], identified
      with the instant (milliseconds since the epoch) its [toDate()] yields.
    - A document is a finite map from field names to values; the [users]
      collection is the list of its documents with their ids, in the order
      in which a query returns them (Firestore orders by document id).
    - The handlers run in a state-and-exception monad [M] over a [World]
      (the collection and the chronological log of every collaborator
      call).  What the outside decides in one request (the clocks, whether
      the mail transport or the identity provider throws) is read from an
      [Env]. *)

From Stdlib Require Import ZArith String List Bool Lia DecimalString.
From stdpp Require Import gmap strings list fin_maps.

Local Open Scope string_scope.
Local Open Scope Z_scope.

(** ** Values *)

Inductive value : Type :=
| VUndefined
| VNull
| VBool (b : bool)
| VNum (n : Z)
| VStr (s : string)
| VTimestamp (ms : Z).

#[global] Instance value_eq_dec : EqDecision value.
Proof. solve_decision. Defined.

(** [!v] is [negb (truthy v)]. *)
Definition truthy (v : value) : bool :=
  match v with
  | VUndefined | VNull => false
  | VBool b => b
  | VNum n => negb (n =? 0)
  | VStr s => negb (String.eqb s "")
  | VTimestamp _ => true
  end.

(** Decimal numeral of an integer, as [Number.prototype.toString] prints
    it. *)
Definition string_of_Z (n : Z) : string :=
  NilZero.string_of_int (Z.to_int n).

(** The string form of a value.  The handlers call [v.toString()] only on
    values they have already tested truthy, where the method and the
    [String(v)] conversion used by template literals agree. *)
Definition toString (v : value) : string :=
  match v with
  | VUndefined => "undefined"
  | VNull => "null"
  | VBool true => "true"
  | VBool false => "false"
  | VNum n => string_of_Z n
  | VStr s => s
  | VTimestamp _ => "[object Object]"
  end.

(** ** Documents and the [users] collection *)

Abbreviation Doc := (gmap string value).
Abbreviation DocId := string (only parsing).
Abbreviation Store := (list (string * gmap string value)).

(** [data?.field]: the field's value, [undefined] when absent. *)
Definition field (d : Doc) (name : string) : value :=
  default VUndefined (d !! name).

Fixpoint lookup_doc (id : DocId) (st : Store) : option Doc :=
  match st with
  | [] => None
  | (k, d) :: rest => if String.eqb k id then Some d else lookup_doc id rest
  end.

(** [where(name, '==', v).limit(1)]: the first document, in collection
    order, whose field [name] is present and equal to [v]. *)
Fixpoint first_where (name : string) (v : value) (st : Store)
  : option (string * Doc) :=
  match st with
  | [] => None
  | (k, d) :: rest =>
      if decide (d !! name = Some v) then Some (k, d)
      else first_where name v rest
  end.

(** Apply [f] to the document stored under [id]. *)
Fixpoint alter_doc (f : Doc -> Doc) (id : DocId) (st : Store) : Store :=
  match st with
  | [] => []
  | (k, d) :: rest =>
      (k, if String.eqb k id then f d else d) :: alter_doc f id rest
  end.

(** Add a new document at its place in document-id order. *)
Fixpoint add_doc (id : DocId) (d : Doc) (st : Store) : Store :=
  match st with
  | [] => [(id, d)]
  | (k, d') :: rest =>
      if String.ltb id k then (id, d) :: (k, d') :: rest
      else (k, d') :: add_doc id d rest
  end.

(** [ref.set(fields, { merge: true })]: the given fields replace or extend
    those of the document, every other field is kept; a document that does
    not exist is created with exactly the given fields. *)
Definition merge_doc (id : DocId) (fields : Doc) (st : Store) : Store :=
  match lookup_doc id st with
  | Some _ => alter_doc (fun d => fields ∪ d) id st
  | None => add_doc id fields st
  end.

(** One entry of the argument of [ref.update({...})]. *)
Inductive FieldUpdate : Type :=
| SetTo (v : value)          (* a plain value *)
| DeleteField                (* FieldValue.delete() *)
| ServerTimestamp.           (* FieldValue.serverTimestamp() *)

Definition apply_update (server_now : Z) (d : Doc)
  (u : string * FieldUpdate) : Doc :=
  match u.2 with
  | SetTo v => <[u.1 := v]> d
  | DeleteField => delete u.1 d
  | ServerTimestamp => <[u.1 := VTimestamp server_now]> d
  end.

Definition update_fields (server_now : Z) (us : list (string * FieldUpdate))
  (d : Doc) : Doc :=
  fold_left (apply_update server_now) us d.

(** ** The world, the environment and the handler monad *)

(** Every call a handler makes to a collaborator. *)
Inductive Event : Type :=
| MailSend (to : value) (code : string)       (* transporter.sendMail *)
| DocGet (id : DocId)                          (* ref.get() *)
| QueryWhere (name : string) (v : value)       (* where(..).limit(1).get() *)
| DocSetMerge (id : DocId) (fields : Doc)      (* ref.set(.., {merge:true}) *)
| DocUpdate (id : DocId) (us : list (string * FieldUpdate))
| AuthUpdateUser (uid : value)                 (* admin.auth().updateUser *)
| ConsoleWarn (msg : string)
| ConsoleError (label err : string).

Record World : Type := mkWorld {
  users : Store;           (* db.collection('users') *)
  calls : list Event       (* oldest first *)
}.

Record Env : Type := mkEnv {
  Date_now : Z;                      (* the process clock, in ms *)
  server_now : Z;                    (* Firestore's clock, in ms *)
  sendMail_error : option string;    (* [Some m]: sendMail throws, message m *)
  updateUser_error : option string;  (* [Some m]: updateUser throws *)
  Date_parse : string -> option Z    (* [None]: an Invalid Date *)
}.

(** A thrown error is represented by its [message] ([""] when it has
    none, which is what [err.message || ''] reads). *)
Inductive Result (A : Type) : Type :=
| Ok (a : A)
| Throw (message : string).
Arguments Ok {A} a.
Arguments Throw {A} message.

Definition M (A : Type) : Type := World -> Result A * World.

Definition ret {A} (a : A) : M A := fun w => (Ok a, w).

Definition bind {A B} (m : M A) (k : A -> M B) : M B :=
  fun w =>
    match m w with
    | (Ok a, w') => k a w'
    | (Throw e, w') => (Throw e, w')
    end.

Definition throw {A} (message : string) : M A := fun w => (Throw message, w).

(** [try { body } catch (err) { handler }] *)
Definition try_catch {A} (body : M A) (handler : string -> M A) : M A :=
  fun w =>
    match body w with
    | (Ok a, w') => (Ok a, w')
    | (Throw e, w') => handler e w'
    end.

Definition emit (e : Event) : M unit :=
  fun w => (Ok tt, mkWorld (users w) (calls w ++ [e])).

Declare Scope handler_scope.
Delimit Scope handler_scope with handler.
Notation "x <- c1 ;; c2" := (bind c1 (fun x => c2))
  (at level 100, c1 at next level, right associativity) : handler_scope.
Notation "c1 ;; c2" := (bind c1 (fun _ => c2))
  (at level 100, right associativity) : handler_scope.
Local Open Scope handler_scope.

(** *** Collaborator calls *)

Definition sendMail (env : Env) (to : value) (code : string) : M unit :=
  emit (MailSend to code) ;;
  match sendMail_error env with
  | Some m => throw m
  | None => ret tt
  end.

(** The double quote character, which the client's messages put around
    the names they cite. *)
Definition dquote : string :=
  String (Ascii.Ascii false true false false false true false false) "".

Definition invalid_path_message : string :=
  "Value for argument " ++ dquote ++ "documentPath" ++ dquote
  ++ " is not a valid resource path. Path must be a non-empty string.".

Definition undefined_query_message : string :=
  "Value for argument " ++ dquote ++ "value" ++ dquote
  ++ " is not a valid query constraint. Cannot use " ++ dquote
  ++ "undefined" ++ dquote ++ " as a Firestore value.".

Definition no_document_message : string :=
  "NOT_FOUND: No document to update".

(** [db.collection('users').doc(path)]: the Firestore client validates the
    path and throws unless it is a non-empty string.  Document ids are
    taken without ['/']: the client also rejects a path with ['//'] or
    with an even number of components, and reads a longer one as a path
    into a sub-collection, which are outside the model.  A statement
    about what the handlers do with a string [uid] is conditional on the
    record their own lookup resolves to, or carries [valid_doc_id] as a
    hypothesis. *)
Definition doc (path : value) : M DocId :=
  match path with
  | VStr s =>
      if String.eqb s "" then throw invalid_path_message else ret s
  | _ => throw invalid_path_message
  end.

Record Snapshot : Type := mkSnapshot {
  snap_ref : DocId;
  snap_data : option Doc      (* [None]: the document does not exist *)
}.

Definition snap_exists (s : Snapshot) : bool :=
  match snap_data s with Some _ => true | None => false end.

Definition get (ref : DocId) : M Snapshot :=
  emit (DocGet ref) ;;
  fun w => (Ok (mkSnapshot ref (lookup_doc ref (users w))), w).

(** [where(name, '==', v).limit(1).get()]: [None] is an empty result,
    [Some] is [docs[0]].  The client rejects [undefined] as a query
    value. *)
Definition where_limit1 (name : string) (v : value) : M (option Snapshot) :=
  match v with
  | VUndefined => throw undefined_query_message
  | _ =>
      emit (QueryWhere name v) ;;
      fun w =>
        (Ok (match first_where name v (users w) with
             | Some (k, d) => Some (mkSnapshot k (Some d))
             | None => None
             end), w)
  end.

Definition set_merge (ref : DocId) (fields : Doc) : M unit :=
  emit (DocSetMerge ref fields) ;;
  fun w => (Ok tt, mkWorld (merge_doc ref fields (users w)) (calls w)).

(** [ref.update({...})] fails when the document does not exist. *)
Definition update (env : Env) (ref : DocId)
  (us : list (string * FieldUpdate)) : M unit :=
  emit (DocUpdate ref us) ;;
  fun w =>
    match lookup_doc ref (users w) with
    | Some _ =>
        (Ok tt,
         mkWorld (alter_doc (update_fields (server_now env) us) ref (users w))
                 (calls w))
    | None => (Throw no_document_message, w)
    end.

Definition updateUser (env : Env) (uid : value) : M unit :=
  emit (AuthUpdateUser uid) ;;
  match updateUser_error env with
  | Some m => throw m
  | None => ret tt
  end.

Definition console_warn (msg : string) : M unit := emit (ConsoleWarn msg).
Definition console_error (label err : string) : M unit :=
  emit (ConsoleError label err).

(** *** Requests and responses *)

(** [const { email, otp, uid } = req.body]; an absent property is
    [VUndefined]. *)
Record Request : Type := mkRequest {
  email : value;
  otp : value;
  uid : value
}.

Inductive Body : Type :=
| ErrorBody (error : string)            (* { success: false, error } *)
| MessageBody (message : string)        (* { success: true, message } *)
| VerifiedBody (message : string) (user_email user_uid : value).
                       (* { success: true, message, user: { email, uid } } *)

Record Response : Type := mkResponse {
  status : Z;
  body : Body
}.

Definition errorResponse (status : Z) (message : string) : Response :=
  mkResponse status (ErrorBody message).

(** [res.json(body)] without [res.status]: status 200. *)
Definition json (b : Body) : Response := mkResponse 200 b.

(** ** POST /sendOtp (server.js, lines 45-91) *)

Definition otp_ttl_ms : Z := 5 * 60 * 1000.

(** Lines 61-77: which document the code is saved to.  After line 61 the
    variable [userDocRef] holds a [DocumentReference], a truthy object;
    [None] stands for a falsy content, the case line 73 tests for. *)
Definition sendOtp_lookup (req : Request) : M (option DocId) :=
  ref0 <- doc (uid req) ;;
  let userDocRef : option DocId := Some ref0 in
  userSnap <- (if truthy (uid req)
               then (s <- get ref0 ;; ret (Some s))
               else ret None) ;;
  if match userSnap with
     | None => true
     | Some s => negb (snap_exists s)
     end
  then
    userDocRef <-
      (if truthy (uid req) then
         snap <- where_limit1 "uid" (uid req) ;;
         match snap with
         | Some d => ret (Some (snap_ref d))
         | None => ret userDocRef
         end
       else ret userDocRef) ;;
    match userDocRef with
    | None =>
        snap2 <- where_limit1 "email" (email req) ;;
        match snap2 with
        | Some d => ret (Some (snap_ref d))
        | None => ret userDocRef
        end
    | Some _ => ret userDocRef
    end
  else ret userDocRef.

Definition otp_fields (env : Env) (req : Request) : Doc :=
  {[ "otp" := VStr (toString (otp req));
     "otpExpiresAt" := VTimestamp (Date_now env + otp_ttl_ms) ]}.

Definition sendOtp (env : Env) (req : Request) : M Response :=
  if negb (truthy (email req)) || negb (truthy (otp req)) then
    ret (errorResponse 400 "Missing email or otp")
  else
    try_catch
      (sendMail env (email req) (toString (otp req)) ;;
       userDocRef <- sendOtp_lookup req ;;
       match userDocRef with
       | Some ref => set_merge ref (otp_fields env req)
       | None =>
           console_warn
             "No user doc found to save OTP. Consider creating the user doc when signing up."
       end ;;
       ret (json (MessageBody "OTP sent successfully")))
      (fun err =>
         console_error "sendOtp error" err ;;
         ret (errorResponse 500 ("Failed to send OTP. " ++ err))).

(** ** POST /verifyOtp (server.js, lines 94-156) *)

(** [otpExpiresAt.toDate ? otpExpiresAt.toDate() : new Date(otpExpiresAt)],
    as the time value of the resulting [Date]; [None] is an Invalid Date.
    Only a [Timestamp] has a [toDate] method.  The handler reaches this
    line with a truthy value only. *)
Definition expiry_date (env : Env) (otpExpiresAt : value) : option Z :=
  match otpExpiresAt with
  | VTimestamp ms => Some ms
  | VNum n => if Z.abs n <=? 8640000000000000 then Some n else None
  | VStr s => Date_parse env s
  | VBool b => Some (if b then 1 else 0)
  | VNull => Some 0
  | VUndefined => None
  end.

(** [new Date() > expiryDate]: a comparison with an Invalid Date is
    false. *)
Definition now_after (env : Env) (expiryDate : option Z) : bool :=
  match expiryDate with
  | Some e => e <? Date_now env
  | None => false
  end.

Definition verified_update : list (string * FieldUpdate) :=
  [ ("emailVerified", SetTo (VBool true));
    ("otp", DeleteField);
    ("otpExpiresAt", DeleteField);
    ("verifiedAt", ServerTimestamp) ].

(** Lines 100-115: the snapshot and the reference the checks run on. *)
Definition verifyOtp_lookup (req : Request) : M (Snapshot * DocId) :=
  ref0 <- doc (uid req) ;;
  snap0 <- get ref0 ;;
  if negb (snap_exists snap0) then
    snap <- where_limit1 "uid" (uid req) ;;
    match snap with
    | Some d => ret (d, snap_ref d)
    | None =>
        snap2 <- where_limit1 "email" (email req) ;;
        match snap2 with
        | Some d => ret (d, snap_ref d)
        | None => ret (snap0, ref0)
        end
    end
  else ret (snap0, ref0).

(** Lines 117-151: the checks on the resolved snapshot, the record update
    and the best-effort update of the identity provider. *)
Definition verifyOtp_check (env : Env) (req : Request)
  (userDocSnap : Snapshot) (userDocRef : DocId) : M Response :=
  match snap_data userDocSnap with
  | None => ret (errorResponse 400 "User not found in Firestore")
  | Some data =>
      let storedOtp := field data "otp" in
      let otpExpiresAt := field data "otpExpiresAt" in
      if negb (truthy storedOtp) then
        ret (errorResponse 400 "OTP not found. Request a new OTP")
      else if negb (truthy otpExpiresAt) then
        ret (errorResponse 400 "OTP expiry missing. Request new OTP")
      else
        let expiryDate := expiry_date env otpExpiresAt in
        if now_after env expiryDate then
          ret (errorResponse 400 "OTP expired. Request new OTP")
        else if negb (String.eqb (toString storedOtp)
                                 (toString (otp req))) then
          ret (errorResponse 400 "Invalid OTP")
        else
          update env userDocRef verified_update ;;
          try_catch
            (updateUser env (uid req))
            (fun authErr =>
               console_error "Failed to update auth user:" authErr) ;;
          ret (json (VerifiedBody "Email verified successfully"
                       (email req) (uid req)))
  end.

Definition verifyOtp (env : Env) (req : Request) : M Response :=
  if negb (truthy (email req)) || negb (truthy (otp req))
     || negb (truthy (uid req)) then
    ret (errorResponse 400 "Missing email, uid, or otp")
  else
    try_catch
      (found <- verifyOtp_lookup req ;;
       verifyOtp_check env req found.1 found.2)
      (fun err =>
         console_error "verifyOtp error" err ;;
         ret (errorResponse 500 ("Failed to verify OTP. " ++ err))).

(** ** Vocabulary of the statements *)

Local Open Scope list_scope.

(** The responses of [verifyOtp], under the names the specification gives
    to the outcomes. *)
Definition MissingFields : Response :=
  errorResponse 400 "Missing email, uid, or otp".
Definition UserNotFound : Response :=
  errorResponse 400 "User not found in Firestore".
Definition NoPendingOtp : Response :=
  errorResponse 400 "OTP not found. Request a new OTP".
Definition NoExpiry : Response :=
  errorResponse 400 "OTP expiry missing. Request new OTP".
Definition Expired : Response :=
  errorResponse 400 "OTP expired. Request new OTP".
Definition Invalid : Response :=
  errorResponse 400 "Invalid OTP".
Definition Verified (req : Request) : Response :=
  json (VerifiedBody "Email verified successfully" (email req) (uid req)).

(** The success response of [sendOtp]. *)
Definition OtpSent : Response := json (MessageBody "OTP sent successfully").

(** Classes of collaborator calls. *)
Definition is_write (e : Event) : bool :=
  match e with
  | DocSetMerge _ _ | DocUpdate _ _ => true
  | _ => false
  end.

Definition is_store_call (e : Event) : bool :=
  match e with
  | DocGet _ | QueryWhere _ _ | DocSetMerge _ _ | DocUpdate _ _ => true
  | _ => false
  end.

Definition is_email_query (e : Event) : bool :=
  match e with
  | QueryWhere name _ => String.eqb name "email"
  | _ => false
  end.

Definition is_warning (e : Event) : bool :=
  match e with
  | ConsoleWarn _ => true
  | _ => false
  end.

(** [email], [otp] and [uid] all pass the test of line 96. *)
Definition well_formed (req : Request) : bool :=
  truthy (email req) && truthy (otp req) && truthy (uid req).

(** The document a verification request resolves to (lines 100-119),
    when there is one. *)
Definition resolved (req : Request) (w : World) : option (string * Doc) :=
  match (verifyOtp_lookup req w).1 with
  | Ok (snap, ref) => (fun d => (ref, d)) <$> snap_data snap
  | Throw _ => None
  end.

(** The stored code and the instant it expires, for a record that passes
    the tests of lines 125, 126 and whose expiry reads as a date. *)
Definition pending_code (env : Env) (d : Doc) : option (value * Z) :=
  if truthy (field d "otp") && truthy (field d "otpExpiresAt")
  then (fun e => (field d "otp", e))
         <$> expiry_date env (field d "otpExpiresAt")
  else None.

(** What the console receives from the inner [catch] of lines 146-149. *)
Definition auth_log (env : Env) : list Event :=
  match updateUser_error env with
  | Some m => [ConsoleError "Failed to update auth user:" m]
  | None => []
  end.

Definition with_updateUser_error (env : Env) (o : option string) : Env :=
  mkEnv (Date_now env) (server_now env) (sendMail_error env) o
        (Date_parse env).

(** The resolver as section 4.1 of the specification words it: the record
    whose primary key is [accountId]; else the first record whose
    [accountId] field (named [uid] in the store) equals it; else the first
    record whose [email] field equals [email]; else not found. *)
Definition UserResolver_spec (st : Store) (accountId email : option string)
  : option (string * Doc) :=
  match accountId ≫= (fun a => pair a <$> lookup_doc a st) with
  | Some r => Some r
  | None =>
      match accountId ≫= (fun a => first_where "uid" (VStr a) st) with
      | Some r => Some r
      | None => email ≫= (fun e => first_where "email" (VStr e) st)
      end
  end.

(** The lookups section 4.1 prescribes, in its order, stopping at the
    first hit. *)
Definition lookups_tried (st : Store) (a e : string) : list Event :=
  DocGet a ::
  match lookup_doc a st with
  | Some _ => []
  | None =>
      QueryWhere "uid" (VStr a) ::
      match first_where "uid" (VStr a) st with
      | Some _ => []
      | None => [QueryWhere "email" (VStr e)]
      end
  end.

(** ** Sample data *)

Definition alice : Doc :=
  {[ "email" := VStr "a@x.com"; "name" := VStr "Alice" ]}.

Definition alice_pending : Doc :=
  {[ "email" := VStr "a@x.com"; "otp" := VStr "123456";
     "otpExpiresAt" := VTimestamp 1300000 ]}.

(** A legacy record: stored under the id [u2], tagged with [uid: "u1"]. *)
Definition bob : Doc :=
  {[ "uid" := VStr "u1"; "email" := VStr "b@x.com" ]}.

Definition w0 : World := mkWorld [("u1", alice)] [].
Definition w_pending : World := mkWorld [("u1", alice_pending)] [].
Definition w_conflict : World := mkWorld [("u1", alice); ("u2", bob)] [].

Definition env_at (now : Z) : Env :=
  mkEnv now (now + 50) None None (fun _ => None).
Definition env0 : Env := env_at 1000000.
Definition env_mail_down : Env :=
  mkEnv 1000000 1000050 (Some "ECONNREFUSED") None (fun _ => None).

Definition req_u1 : Request :=
  mkRequest (VStr "a@x.com") (VStr "123456") (VStr "u1").
Definition req_number : Request :=
  mkRequest (VStr "a@x.com") (VNum 123456) (VStr "u1").
Definition req_wrong : Request :=
  mkRequest (VStr "a@x.com") (VStr "000000") (VStr "u1").
Definition req_no_otp : Request :=
  mkRequest (VStr "a@x.com") VUndefined (VStr "u1").
Definition req_email_only : Request :=
  mkRequest (VStr "a@x.com") (VStr "123456") VUndefined.
Definition req_ghost : Request :=
  mkRequest (VStr "nobody@x.com") (VStr "123456") (VStr "ghost").
Definition req_conflict : Request :=
  mkRequest (VStr "b@x.com") (VStr "123456") (VStr "u1").

(** ** Further vocabulary *)

Fixpoint has_slash (s : string) : bool :=
  match s with
  | EmptyString => false
  | String c rest => String.eqb (String c "") "/" || has_slash rest
  end.

Fixpoint ends_with_underscores (s : string) : bool :=
  match s with
  | EmptyString => false
  | String c rest =>
      String.eqb s "__" || ends_with_underscores rest
  end.

(** The identifiers Firestore takes as the id of a document of a
    collection: not empty, at most 1500 bytes, without ['/'], other than
    [.] and [..], and not of the form [__.*__].  On these, [doc] as
    modelled is the client's [doc]. *)
Definition valid_doc_id (a : string) : bool :=
  negb (String.eqb a "")
  && (Z.of_nat (String.length a) <=? 1500)
  && negb (has_slash a)
  && negb (String.eqb a ".")
  && negb (String.eqb a "..")
  && negb (match a with
           | String c1 (String c2 rest) =>
               String.eqb (String c1 (String c2 "")) "__"
               && ends_with_underscores rest
           | _ => false
           end).

(** The values of a JSON body whose string form [toString] gives as
    JavaScript does: an absent property, null, the booleans, the strings
    and the integers up to 2^53 in magnitude.  (Beyond, a number is not
    printed as the numeral of its value; arrays and objects are not
    values of the model.) *)
Definition json_scalar (v : value) : bool :=
  match v with
  | VNum n => Z.abs n <=? 9007199254740992
  | VTimestamp _ => false
  | _ => true
  end.

(** A [uid] on which [doc] as modelled is the client's [doc]: anything
    that is not a string, the empty string, or a valid document id. *)
Definition uid_in_scope (v : value) : bool :=
  match v with
  | VStr s => String.eqb s "" || valid_doc_id s
  | _ => true
  end.

(** The values [doc] accepts: the non-empty strings. *)
Definition is_doc_id (v : value) : bool :=
  match v with
  | VStr s => negb (String.eqb s "")
  | _ => false
  end.

(** The document [sendOtp] saves the code to (lines 61-71) for the account
    identifier [a]: the document with that id when it exists, else the
    first document tagged with it, else the document with that id
    again. *)
Definition issue_target (st : Store) (a : string) : string :=
  match lookup_doc a st with
  | Some _ => a
  | None =>
      match first_where "uid" (VStr a) st with
      | Some (k, _) => k
      | None => a
      end
  end.

(** The store reads of lines 62 and 67. *)
Definition issue_lookups (st : Store) (a : string) : list Event :=
  DocGet a ::
  match lookup_doc a st with
  | Some _ => []
  | None => [QueryWhere "uid" (VStr a)]
  end.

Definition is_mail (e : Event) : bool :=
  match e with
  | MailSend _ _ => true
  | _ => false
  end.

Definition is_auth (e : Event) : bool :=
  match e with
  | AuthUpdateUser _ => true
  | _ => false
  end.

Definition is_update (e : Event) : bool :=
  match e with
  | DocUpdate _ _ => true
  | _ => false
  end.

Definition is_merge (e : Event) : bool :=
  match e with
  | DocSetMerge _ _ => true
  | _ => false
  end.

(** A record whose expiry does not read as a date, and one without
    expiry. *)
Definition carol : Doc :=
  {[ "email" := VStr "c@x.com"; "otp" := VStr "654321";
     "otpExpiresAt" := VStr "tomorrow" ]}.
Definition dave : Doc :=
  {[ "email" := VStr "d@x.com"; "otp" := VStr "111111" ]}.

Definition w_legacy : World := mkWorld [("u2", bob)] [].
Definition w_carol : World := mkWorld [("u3", carol)] [].
Definition w_dave : World := mkWorld [("u4", dave)] [].

Definition req_u3 : Request :=
  mkRequest (VStr "c@x.com") (VStr "654321") (VStr "u3").
Definition req_u4 : Request :=
  mkRequest (VStr "d@x.com") (VStr "111111") (VStr "u4").
Definition req_zz : Request :=
  mkRequest (VStr "a@x.com") (VStr "123456") (VStr "zz").
Definition req_num_uid : Request :=
  mkRequest (VStr "a@x.com") (VStr "123456") (VNum 42).
Definition req_second : Request :=
  mkRequest (VStr "a@x.com") (VStr "222222") (VStr "u1").

(** ** Facts about the collection *)

Section Collection.

Implicit Types (st : Store) (d : Doc) (f : Doc -> Doc).

Lemma lookup_alter_doc f id k st :
  lookup_doc k (alter_doc f id st)
  = (fun d => if String.eqb k id then f d else d) <$> lookup_doc k st.
Proof.
  induction st as [|[k' d'] st IH]; simpl; [done|].
  destruct (String.eqb k' k) eqn:E; [|done].
  apply String.eqb_eq in E. by subst.
Qed.

(** A query on a field that [f] leaves alone finds the same document
    before and after [f] is applied to the document [id]. *)
Lemma first_where_alter_doc f id name v st :
  (forall d, f d !! name = d !! name) ->
  first_where name v (alter_doc f id st)
  = (fun kd => (kd.1, if String.eqb kd.1 id then f kd.2 else kd.2))
      <$> first_where name v st.
Proof.
  intros Hf. induction st as [|[k d] st IH]; simpl; [done|].
  assert ((if String.eqb k id then f d else d) !! name = d !! name) as ->
    by (destruct (String.eqb k id); auto).
  by destruct (decide (d !! name = Some v)).
Qed.

Lemma first_where_lookup name v st k d :
  first_where name v st = Some (k, d) -> is_Some (lookup_doc k st).
Proof.
  induction st as [|[k' d'] st IH]; simpl; [done|].
  destruct (decide (d' !! name = Some v)).
  - intros [= -> ->]. rewrite String.eqb_refl. eauto.
  - intros H. destruct (String.eqb k' k); eauto.
Qed.

Lemma elem_of_alter_doc f id st k d :
  (k, d) ∈ alter_doc f id st ->
  (k, d) ∈ st \/ exists d0, (k, d0) ∈ st /\ k = id /\ d = f d0.
Proof.
  induction st as [|[k' d'] st IH]; simpl; [by rewrite elem_of_nil|].
  rewrite !elem_of_cons. intros [[= -> ->]|H].
  - destruct (String.eqb k' id) eqn:E.
    + apply String.eqb_eq in E. right. exists d'. rewrite elem_of_cons. auto.
    + auto.
  - destruct (IH H) as [?|(d0 & ? & ? & ?)]; [auto|].
    right. exists d0. rewrite elem_of_cons. auto.
Qed.

Lemma elem_of_add_doc id d0 st k d :
  (k, d) ∈ add_doc id d0 st -> (k, d) ∈ st \/ (k, d) = (id, d0).
Proof.
  induction st as [|[k' d'] st IH]; simpl.
  - rewrite list_elem_of_singleton. auto.
  - destruct (String.ltb id k'); rewrite !elem_of_cons.
    + intros [?|[?|?]]; auto.
    + intros [?|H]; [auto|]. destruct (IH H); auto.
Qed.

(** Every document of a collection after a merge is a document of the
    collection before, or carries the merged fields. *)
Lemma merge_doc_elem (P : Doc -> Prop) id (fields : Doc) st :
  (forall d, P (fields ∪ d)) -> P fields ->
  Forall (fun kd => kd ∈ st \/ P kd.2) (merge_doc id fields st).
Proof.
  intros Hm Hf. apply Forall_forall. intros [k d] Hin. cbn [snd].
  unfold merge_doc in Hin. destruct (lookup_doc id st).
  - apply elem_of_alter_doc in Hin as [?|(d0 & _ & _ & ->)]; auto.
  - apply elem_of_add_doc in Hin as [?|[= -> ->]]; auto.
Qed.

Lemma alter_doc_elem (P : Doc -> Prop) id f st :
  (forall d, P (f d)) ->
  Forall (fun kd => kd ∈ st \/ P kd.2) (alter_doc f id st).
Proof.
  intros Hf. apply Forall_forall. intros [k d] Hin. cbn [snd].
  apply elem_of_alter_doc in Hin as [?|(d0 & _ & _ & ->)]; auto.
Qed.

Lemma Forall_unchanged (P : Doc -> Prop) st :
  Forall (fun kd => kd ∈ st \/ P kd.2) st.
Proof. apply Forall_forall. auto. Qed.

End Collection.

(** ** The two writes *)

Lemma update_fields_verified sn (d : Doc) :
  update_fields sn verified_update d
  = <["verifiedAt" := VTimestamp sn]>
      (delete "otpExpiresAt"
         (delete "otp" (<["emailVerified" := VBool true]> d))).
Proof. reflexivity. Qed.

Lemma verified_lookup sn (d : Doc) name :
  update_fields sn verified_update d !! name =
  if decide (name = "verifiedAt") then Some (VTimestamp sn)
  else if decide (name = "otpExpiresAt") then None
  else if decide (name = "otp") then None
  else if decide (name = "emailVerified") then Some (VBool true)
  else d !! name.
Proof.
  rewrite update_fields_verified.
  repeat case_decide; simplify_map_eq; done.
Qed.

Lemma otp_fields_otp env req :
  otp_fields env req !! "otp" = Some (VStr (toString (otp req))).
Proof. unfold otp_fields. by simplify_map_eq. Qed.

Lemma otp_fields_expiry env req :
  otp_fields env req !! "otpExpiresAt"
  = Some (VTimestamp (Date_now env + otp_ttl_ms)).
Proof. unfold otp_fields. by simplify_map_eq. Qed.

(** ** Running the handlers *)

(** Case analysis on the innermost scrutinee of the goal. *)
Ltac inner_case :=
  match goal with
  | |- context [match ?x with _ => _ end] =>
      lazymatch x with
      | context [match _ with _ => _ end] => fail
      | _ => destruct x eqn:?
      end
  end.

(** Unfold the monad and follow every path of a handler. *)
Ltac run_handler :=
  cbv [bind ret try_catch throw emit sendMail get doc where_limit1 set_merge
       update updateUser console_warn console_error
       snap_exists snap_data snap_ref];
  repeat (inner_case;
          cbn [users calls snap_data snap_ref fst snd body status
               errorResponse json negb orb andb] in * );
  simplify_eq/=.

(** A document returned by a query exists. *)
Ltac absurd_lookup :=
  match goal with
  | H : first_where _ _ ?st = Some (?k, _),
    H2 : lookup_doc ?k ?st = None |- _ =>
      apply first_where_lookup in H; rewrite H2 in H; by destruct H
  end.

Ltac back_to_req :=
  repeat match goal with
         | H : _ ?req = _ |- context [?req] => rewrite H
         end.

(** Close a goal [exists resp new st', run = (Ok resp, ...) /\ _] after
    [run_handler], leaving the second conjunct. *)
Ltac name_outcome :=
  rewrite <- ?app_assoc; cbn [app];
  first [ eexists _, _, _; split; [reflexivity|]
        | eexists _, [], _; split; [by rewrite app_nil_r|] ].

(** The lookup of [verifyOtp], path by path. *)
Lemma verifyOtp_lookup_run req w a :
  uid req = VStr a -> a <> "" -> email req <> VUndefined ->
  verifyOtp_lookup req w =
  match lookup_doc a (users w) with
  | Some d =>
      (Ok (mkSnapshot a (Some d), a),
       mkWorld (users w) (calls w ++ [DocGet a]))
  | None =>
      match first_where "uid" (VStr a) (users w) with
      | Some (k, d) =>
          (Ok (mkSnapshot k (Some d), k),
           mkWorld (users w)
             (calls w ++ [DocGet a; QueryWhere "uid" (VStr a)]))
      | None =>
          match first_where "email" (email req) (users w) with
          | Some (k, d) =>
              (Ok (mkSnapshot k (Some d), k),
               mkWorld (users w)
                 (calls w ++ [DocGet a; QueryWhere "uid" (VStr a);
                              QueryWhere "email" (email req)]))
          | None =>
              (Ok (mkSnapshot a None, a),
               mkWorld (users w)
                 (calls w ++ [DocGet a; QueryWhere "uid" (VStr a);
                              QueryWhere "email" (email req)]))
          end
      end
  end.
Proof.
  intros Hu Ha He. unfold verifyOtp_lookup. rewrite Hu.
  apply String.eqb_neq in Ha.
  cbv [bind ret throw emit get doc where_limit1 snap_exists snap_data snap_ref].
  rewrite Ha. cbn [users calls].
  destruct (lookup_doc a (users w)) as [d|]; cbn [negb users calls]; [done|].
  destruct (first_where "uid" (VStr a) (users w)) as [[k d]|];
    cbn [negb users calls].
  { by rewrite <- app_assoc. }
  destruct (email req) eqn:E; try done;
    cbn [users calls];
    destruct (first_where "email" _ (users w)) as [[k d]|];
    by rewrite <- !app_assoc.
Qed.

Lemma verifyOtp_lookup_users req w :
  users (verifyOtp_lookup req w).2 = users w.
Proof.
  unfold verifyOtp_lookup. destruct w as [st cs].
  run_handler; done.
Qed.

Lemma resolved_lookup req w id d :
  resolved req w = Some (id, d) ->
  verifyOtp_lookup req w
  = (Ok (mkSnapshot id (Some d), id), (verifyOtp_lookup req w).2)
  /\ is_Some (lookup_doc id (users w)).
Proof.
  unfold resolved, verifyOtp_lookup. destruct w as [st cs].
  run_handler; intros; simplify_eq/=; eauto using first_where_lookup.
Qed.

Lemma resolved_uid req w id d :
  resolved req w = Some (id, d) -> exists a, uid req = VStr a /\ a <> "".
Proof.
  unfold resolved, verifyOtp_lookup, bind at 1, doc.
  destruct (uid req) as [| |b|n|a|t]; try done.
  destruct (String.eqb a "") eqn:E; [done|].
  apply String.eqb_neq in E. eauto.
Qed.

(** A request keeps resolving to the same document when that document is
    rewritten without touching its [uid] and [email] fields. *)
Lemma resolved_alter req w w' id d (f : Doc -> Doc) :
  truthy (email req) = true ->
  (forall x, f x !! "uid" = x !! "uid") ->
  (forall x, f x !! "email" = x !! "email") ->
  resolved req w = Some (id, d) ->
  users w' = alter_doc f id (users w) ->
  resolved req w' = Some (id, f d).
Proof.
  intros He Hfu Hfe Hres Hw'.
  destruct (resolved_uid _ _ _ _ Hres) as (a & Hu & Ha).
  assert (email req <> VUndefined) as He' by (by intros E; rewrite E in He).
  revert Hres. unfold resolved.
  rewrite !(verifyOtp_lookup_run _ _ a) by done.
  rewrite Hw', lookup_alter_doc, !first_where_alter_doc by done.
  destruct (lookup_doc a (users w)) as [d0|];
    cbn [fmap option_fmap option_map fst snd snap_data].
  { intros [= <- <-]. by rewrite String.eqb_refl. }
  destruct (first_where "uid" _ _) as [[k d0]|];
    cbn [fmap option_fmap option_map fst snd snap_data].
  { intros [= <- <-]. by rewrite String.eqb_refl. }
  destruct (first_where "email" _ _) as [[k d0]|];
    cbn [fmap option_fmap option_map fst snd snap_data].
  { intros [= <- <-]. by rewrite String.eqb_refl. }
  done.
Qed.

(** [verifyOtp] on a request that resolves to the document [d]. *)
Lemma verifyOtp_resolved_run env req w id d :
  well_formed req = true ->
  resolved req w = Some (id, d) ->
  verifyOtp env req w =
  let w1 := (verifyOtp_lookup req w).2 in
  if negb (truthy (field d "otp")) then (Ok NoPendingOtp, w1)
  else if negb (truthy (field d "otpExpiresAt")) then (Ok NoExpiry, w1)
  else if now_after env (expiry_date env (field d "otpExpiresAt"))
  then (Ok Expired, w1)
  else if negb (String.eqb (toString (field d "otp")) (toString (otp req)))
  then (Ok Invalid, w1)
  else (Ok (Verified req),
        mkWorld
          (alter_doc (update_fields (server_now env) verified_update) id
             (users w))
          (calls w1 ++ DocUpdate id verified_update
             :: AuthUpdateUser (uid req) :: auth_log env)).
Proof.
  intros Hwf Hres.
  pose proof (verifyOtp_lookup_users req w) as Hst.
  destruct (resolved_lookup _ _ _ _ Hres) as [Hrun [d0 Hd0]].
  set (w1 := (verifyOtp_lookup req w).2) in *.
  unfold well_formed in Hwf. apply andb_true_iff in Hwf as [Hwf Hu].
  apply andb_true_iff in Hwf as [He Ho].
  unfold verifyOtp. rewrite He, Ho, Hu. cbn [negb orb].
  unfold try_catch, bind at 1. rewrite Hrun. cbn [fst snd].
  unfold verifyOtp_check. cbn [snap_data]. cbv zeta.
  destruct (negb (truthy (field d "otp"))); [done|].
  destruct (negb (truthy (field d "otpExpiresAt"))); [done|].
  destruct (now_after _ _); [done|].
  destruct (negb (String.eqb _ _)); [done|].
  unfold auth_log.
  cbv [bind ret try_catch throw emit update updateUser console_error].
  cbn [users calls]. rewrite Hst, Hd0. cbn [users calls].
  destruct (updateUser_error env); cbn [users calls];
    by rewrite <- ?app_assoc.
Qed.

Lemma pending_code_inv env d stored e :
  pending_code env d = Some (stored, e) ->
  stored = field d "otp" /\
  truthy (field d "otp") = true /\
  truthy (field d "otpExpiresAt") = true /\
  expiry_date env (field d "otpExpiresAt") = Some e.
Proof.
  unfold pending_code.
  destruct (truthy (field d "otp")); [|done].
  destruct (truthy (field d "otpExpiresAt")); [|done].
  destruct (expiry_date env (field d "otpExpiresAt")); [|done].
  cbn. by intros [= <- <-].
Qed.

(** [verifyOtp] on a request that resolves to a document with a pending
    code: the expiry test, then the comparison, then the update. *)
Lemma verifyOtp_pending_run env req w id d stored e :
  well_formed req = true ->
  resolved req w = Some (id, d) ->
  pending_code env d = Some (stored, e) ->
  verifyOtp env req w =
  let w1 := (verifyOtp_lookup req w).2 in
  if e <? Date_now env then (Ok Expired, w1)
  else if String.eqb (toString stored) (toString (otp req))
  then (Ok (Verified req),
        mkWorld
          (alter_doc (update_fields (server_now env) verified_update) id
             (users w))
          (calls w1 ++ DocUpdate id verified_update
             :: AuthUpdateUser (uid req) :: auth_log env))
  else (Ok Invalid, w1).
Proof.
  intros Hwf Hres (-> & Ho & Hx & Hd)%pending_code_inv.
  rewrite (verifyOtp_resolved_run env req w id d) by done.
  cbv zeta. rewrite Ho, Hx, Hd. cbn [negb now_after].
  destruct (e <? Date_now env); [done|].
  by destruct (String.eqb _ _).
Qed.

(** Every run of [verifyOtp] answers; it answers with the success body
    after exactly one write, the update of the resolved document, and with
    an error body after no write at all. *)
Lemma verifyOtp_effect env req w :
  exists resp new st',
    verifyOtp env req w = (Ok resp, mkWorld st' (calls w ++ new)) /\
    match body resp with
    | VerifiedBody _ _ _ =>
        resp = Verified req /\
        exists ref,
          List.filter is_write new = [DocUpdate ref verified_update] /\
          st' = alter_doc (update_fields (server_now env) verified_update)
                  ref (users w)
    | ErrorBody msg =>
        st' = users w /\ List.filter is_write new = [] /\
        msg <> "" /\ (status resp = 400 \/ status resp = 500)
    | MessageBody _ => False
    end.
Proof.
  destruct w as [st cs].
  unfold verifyOtp, verifyOtp_lookup, verifyOtp_check.
  run_handler; try absurd_lookup.
  all: name_outcome; cbn [body errorResponse json status].
  all: try (split_and!; [done| done | done | auto]; fail).
  all: unfold Verified; back_to_req; split; [done|]; eexists; split; done.
Qed.

(** Every run of [sendOtp] answers; it never queries by [email] and never
    warns; it answers with the success body after exactly one write, the
    merge of the code and its expiry, and with an error body after no
    write at all. *)
Lemma sendOtp_effect env req w :
  exists resp new st',
    sendOtp env req w = (Ok resp, mkWorld st' (calls w ++ new)) /\
    List.filter is_email_query new = [] /\
    List.filter is_warning new = [] /\
    match body resp with
    | MessageBody _ =>
        resp = OtpSent /\
        exists ref,
          List.filter is_write new = [DocSetMerge ref (otp_fields env req)] /\
          st' = merge_doc ref (otp_fields env req) (users w)
    | ErrorBody msg =>
        st' = users w /\ List.filter is_write new = [] /\
        msg <> "" /\ (status resp = 400 \/ status resp = 500)
    | VerifiedBody _ _ _ => False
    end.
Proof.
  destruct w as [st cs].
  unfold sendOtp, sendOtp_lookup.
  run_handler.
  all: name_outcome; cbn [body errorResponse json status].
  all: split; [done|]; split; [done|].
  all: try (split_and!; [done| done | done | auto]; fail).
  all: split; [done|]; eexists; split; done.
Qed.

Lemma sendOtp_users_shape (P : Doc -> Prop) env req w :
  (forall d, P (otp_fields env req ∪ d)) -> P (otp_fields env req) ->
  Forall (fun kd => kd ∈ users w \/ P kd.2) (users (sendOtp env req w).2).
Proof.
  intros Hm Hf.
  destruct (sendOtp_effect env req w) as (resp & new & st' & -> & _ & _ & H).
  cbn [snd users].
  destruct (body resp); [| |done].
  - destruct H as (-> & _). apply Forall_unchanged.
  - destruct H as (_ & ref & _ & ->). by apply merge_doc_elem.
Qed.

Lemma verifyOtp_users_shape (P : Doc -> Prop) env req w :
  (forall d, P (update_fields (server_now env) verified_update d)) ->
  Forall (fun kd => kd ∈ users w \/ P kd.2) (users (verifyOtp env req w).2).
Proof.
  intros Hf.
  destruct (verifyOtp_effect env req w) as (resp & new & st' & -> & H).
  cbn [snd users].
  destruct (body resp); [| done |].
  - destruct H as (-> & _). apply Forall_unchanged.
  - destruct H as (_ & ref & _ & ->). by apply alter_doc_elem.
Qed.

(** ** The scenarios of the specification, evaluated *)

Example issue_records_code :
  sendOtp env0 req_u1 w0
  = (Ok OtpSent,
     mkWorld [("u1", otp_fields env0 req_u1 ∪ alice)]
       [MailSend (VStr "a@x.com") "123456"; DocGet "u1";
        DocSetMerge "u1" (otp_fields env0 req_u1)])
  /\ (otp_fields env0 req_u1 ∪ alice) !! "otp" = Some (VStr "123456")
  /\ (otp_fields env0 req_u1 ∪ alice) !! "otpExpiresAt"
     = Some (VTimestamp 1300000)
  /\ (otp_fields env0 req_u1 ∪ alice) !! "name" = Some (VStr "Alice").
Proof. split_and!; reflexivity. Qed.

Example verify_after_issue :
  let issued := (sendOtp env0 req_u1 w0).2 in
  let done_ := verifyOtp (env_at 1000200) req_u1 issued in
  done_.1 = Ok (Verified req_u1)
  /\ users done_.2
     = [("u1", <["verifiedAt" := VTimestamp 1000250]>
                 (<["emailVerified" := VBool true]> alice))].
Proof. split; reflexivity. Qed.

Example verify_wrong_code :
  verifyOtp env0 req_wrong w_pending
  = (Ok Invalid, mkWorld (users w_pending) [DocGet "u1"]).
Proof. reflexivity. Qed.

Example verify_six_minutes_later :
  let issued := (sendOtp env0 req_u1 w0).2 in
  (verifyOtp (env_at (1000000 + 6 * 60 * 1000)) req_u1 issued).1 = Ok Expired.
Proof. reflexivity. Qed.

Example issue_without_otp :
  sendOtp env0 req_no_otp w0
  = (Ok (errorResponse 400 "Missing email or otp"), w0).
Proof. reflexivity. Qed.

Example issue_number_verify_string :
  let issued := (sendOtp env0 req_number w0).2 in
  (verifyOtp env0 req_u1 issued).1 = Ok (Verified req_u1).
Proof. reflexivity. Qed.

(** ** Issuance *)

(** When [uid] names no document and no document is tagged with it, the
    code is merged into [doc(uid)] all the same, which creates that
    document: line 61 has put a reference in [userDocRef], so the test of
    line 80 succeeds. *)
Lemma sendOtp_unresolved_run env req w a :
  truthy (email req) = true -> truthy (otp req) = true ->
  uid req = VStr a -> a <> "" ->
  sendMail_error env = None ->
  lookup_doc a (users w) = None ->
  first_where "uid" (VStr a) (users w) = None ->
  sendOtp env req w
  = (Ok OtpSent,
     mkWorld (add_doc a (otp_fields env req) (users w))
       (calls w ++ [MailSend (email req) (toString (otp req)); DocGet a;
                    QueryWhere "uid" (VStr a);
                    DocSetMerge a (otp_fields env req)])).
Proof.
  intros He Ho Hu Ha Hm Hl Hq. apply String.eqb_neq in Ha.
  unfold sendOtp, sendOtp_lookup. rewrite He, Ho, Hu. cbn [negb orb truthy].
  rewrite Ha. cbn [negb].
  cbv [try_catch bind sendMail emit throw ret get doc where_limit1 set_merge
       snap_exists snap_data snap_ref].
  rewrite Hm, Ha. cbn [users calls]. rewrite Hl. cbn [users calls negb].
  rewrite Hq. cbn [users calls]. unfold merge_doc. rewrite Hl.
  by rewrite <- !app_assoc.
Qed.

(** Without [uid], [doc(uid)] throws once the mail has left; the handler
    answers 500 and the collection is as it was. *)
Lemma sendOtp_without_uid env req w :
  truthy (email req) = true -> truthy (otp req) = true ->
  uid req = VUndefined ->
  sendMail_error env = None ->
  sendOtp env req w
  = (Ok (errorResponse 500
           ("Failed to send OTP. " ++ invalid_path_message)%string),
     mkWorld (users w)
       (calls w ++ [MailSend (email req) (toString (otp req));
                    ConsoleError "sendOtp error" invalid_path_message])).
Proof.
  intros He Ho Hu Hm.
  unfold sendOtp, sendOtp_lookup. rewrite He, Ho, Hu. cbn [negb orb].
  cbv [try_catch bind sendMail emit throw ret doc console_error].
  rewrite Hm. cbn [users calls]. by rewrite <- !app_assoc.
Qed.

(** C2 (email-only issuance), evaluated on the code.  The request carries
    a valid [email] and [otp] and no [uid], and the collection holds a
    record with that email.  The handler sends the mail, fails on
    [doc(undefined)], answers 500 and records nothing: the record found by
    the email lookup is left without a pending code. *)
Theorem sendOtp_email_only_not_recorded :
  first_where "email" (email req_email_only) (users w0) = Some ("u1", alice)
  /\ alice !! "otp" = None
  /\ sendOtp env0 req_email_only w0
     = (Ok (errorResponse 500
              ("Failed to send OTP. " ++ invalid_path_message)%string),
        mkWorld [("u1", alice)]
          [MailSend (VStr "a@x.com") "123456";
           ConsoleError "sendOtp error" invalid_path_message]).
Proof. split_and!; reflexivity. Qed.

(** C3 (unresolved issuance), evaluated on the code.  No record has the
    id [ghost], none is tagged with it and none has the email; the handler
    reports success and yet persists a pending code, in a record it
    creates under the id [ghost]. *)
Theorem sendOtp_unresolved_creates_record :
  lookup_doc "ghost" (users w0) = None
  /\ first_where "uid" (uid req_ghost) (users w0) = None
  /\ first_where "email" (email req_ghost) (users w0) = None
  /\ sendOtp env0 req_ghost w0
     = (Ok OtpSent,
        mkWorld [("ghost", otp_fields env0 req_ghost); ("u1", alice)]
          [MailSend (VStr "nobody@x.com") "123456"; DocGet "ghost";
           QueryWhere "uid" (VStr "ghost");
           DocSetMerge "ghost" (otp_fields env0 req_ghost)]).
Proof. split_and!; reflexivity. Qed.

(** C7 (delivery failure aborts issuance).  When [sendMail] throws, the
    handler answers 500 with the transport's message; the only calls it
    has made are the mail attempt and the console line, so the store is
    neither read nor written and the collection is unchanged. *)
Theorem sendOtp_delivery_failure env req w m :
  truthy (email req) = true ->
  truthy (otp req) = true ->
  sendMail_error env = Some m ->
  let new := [MailSend (email req) (toString (otp req));
              ConsoleError "sendOtp error" m] in
  sendOtp env req w
  = (Ok (errorResponse 500 ("Failed to send OTP. " ++ m)%string),
     mkWorld (users w) (calls w ++ new))
  /\ List.filter is_store_call new = [].
Proof.
  intros He Ho Hm. cbv zeta. split; [|done].
  unfold sendOtp. rewrite He, Ho. cbn [negb orb].
  cbv [try_catch bind sendMail emit throw ret console_error].
  rewrite Hm. cbn [users calls]. by rewrite <- app_assoc.
Qed.

Lemma sendOtp_delivery_failure_witness :
  sendOtp env_mail_down req_u1 w0
  = (Ok (errorResponse 500 "Failed to send OTP. ECONNREFUSED"),
     mkWorld (users w0)
       [MailSend (VStr "a@x.com") "123456";
        ConsoleError "sendOtp error" "ECONNREFUSED"]).
Proof.
  exact (proj1 (sendOtp_delivery_failure env_mail_down req_u1 w0
                  "ECONNREFUSED" eq_refl eq_refl eq_refl)).
Defined.

(** ** Resolution *)

Lemma valid_doc_id_nonempty a : valid_doc_id a = true -> a <> "".
Proof. by destruct a. Qed.

(** C4 (resolution preference order).  For an account identifier [a]
    that is a valid document id and an email [e], the lookup of
    [verifyOtp] leaves the collection alone,
    makes exactly the lookups of section 4.1 in their order, stopping at
    the first hit, and returns the record the specification's resolver
    returns (a snapshot that does not exist when there is none).  In
    particular, when a record has the primary key [a], that record is
    returned after the single [get], whatever other records carry [a] in
    their [uid] field or [e] in their [email] field. *)
Theorem verifyOtp_lookup_preference req w a e :
  uid req = VStr a -> valid_doc_id a = true -> email req = VStr e ->
  let r := verifyOtp_lookup req w in
  users r.2 = users w /\
  calls r.2 = calls w ++ lookups_tried (users w) a e /\
  match UserResolver_spec (users w) (Some a) (Some e) with
  | Some (k, d) => r.1 = Ok (mkSnapshot k (Some d), k)
  | None => r.1 = Ok (mkSnapshot a None, a)
  end /\
  match lookup_doc a (users w) with
  | Some d =>
      r = (Ok (mkSnapshot a (Some d), a),
           mkWorld (users w) (calls w ++ [DocGet a]))
  | None => True
  end.
Proof.
  intros Hu Ha%valid_doc_id_nonempty He r. unfold r.
  rewrite (verifyOtp_lookup_run req w a) by (rewrite ?He; done).
  unfold UserResolver_spec, lookups_tried. rewrite He.
  cbn [mbind option_bind].
  destruct (lookup_doc a (users w)) as [d|]; cbn; [done|].
  destruct (first_where "uid" (VStr a) (users w)) as [[k d]|]; cbn; [done|].
  destruct (first_where "email" (VStr e) (users w)) as [[k d]|]; cbn; done.
Qed.

Lemma verifyOtp_lookup_preference_witness :
  verifyOtp_lookup req_conflict w_conflict
  = (Ok (mkSnapshot "u1" (Some alice), "u1"),
     mkWorld (users w_conflict) [DocGet "u1"])
  /\ first_where "uid" (VStr "u1") (users w_conflict) = Some ("u2", bob)
  /\ first_where "email" (VStr "b@x.com") (users w_conflict)
     = Some ("u2", bob).
Proof.
  split; [|split; reflexivity].
  pose proof (verifyOtp_lookup_preference req_conflict w_conflict
                "u1" "b@x.com" eq_refl eq_refl eq_refl) as H.
  cbv zeta in H. destruct H as (_ & _ & _ & H). exact H.
Defined.

(** ** Verification *)

(** C1 (single-use consumption).  A well-formed request resolves to a
    record with a pending code and expiry; the submitted code has the
    string form of the stored one and the attempt is before expiry.  Then
    the attempt succeeds; its one write is the update that sets
    [emailVerified] to true and [verifiedAt] and deletes [otp] and
    [otpExpiresAt]; the request resolves to the updated record afterwards;
    and a second attempt with the same request, at any time and whatever
    the collaborators do, fails with NoPendingOtp and changes nothing. *)
Theorem verifyOtp_single_use env env2 req w id d stored e :
  well_formed req = true ->
  resolved req w = Some (id, d) ->
  pending_code env d = Some (stored, e) ->
  toString (otp req) = toString stored ->
  Date_now env < e ->
  let d' := update_fields (server_now env) verified_update d in
  let first := verifyOtp env req w in
  let second := verifyOtp env2 req first.2 in
  first.1 = Ok (Verified req) /\
  users first.2 = alter_doc (update_fields (server_now env) verified_update)
                    id (users w) /\
  calls first.2 = calls (verifyOtp_lookup req w).2
                  ++ DocUpdate id verified_update
                     :: AuthUpdateUser (uid req) :: auth_log env /\
  resolved req first.2 = Some (id, d') /\
  d' !! "emailVerified" = Some (VBool true) /\
  d' !! "verifiedAt" = Some (VTimestamp (server_now env)) /\
  d' !! "otp" = None /\
  d' !! "otpExpiresAt" = None /\
  second.1 = Ok NoPendingOtp /\
  users second.2 = users first.2.
Proof.
  intros Hwf Hres Hpend Hmatch Hnow d' first second.
  assert (truthy (email req) = true) as He.
  { unfold well_formed in Hwf. by destruct (truthy (email req)). }
  assert (first = (Ok (Verified req),
            mkWorld (alter_doc (update_fields (server_now env) verified_update)
                       id (users w))
              (calls (verifyOtp_lookup req w).2
               ++ DocUpdate id verified_update
                  :: AuthUpdateUser (uid req) :: auth_log env))) as Hfirst.
  { unfold first.
    rewrite (verifyOtp_pending_run env req w id d stored e) by done.
    cbv zeta. rewrite Hmatch, String.eqb_refl.
    destruct (e <? Date_now env) eqn:E; [lia|done]. }
  assert (resolved req first.2 = Some (id, d')) as Hres2.
  { apply (resolved_alter req w); try done.
    - intros x. by rewrite verified_lookup.
    - intros x. by rewrite verified_lookup.
    - by rewrite Hfirst. }
  assert (d' !! "otp" = None) as Hgone
    by (unfold d'; by rewrite verified_lookup).
  assert (second = (Ok NoPendingOtp, (verifyOtp_lookup req first.2).2))
    as Hsecond.
  { unfold second.
    rewrite (verifyOtp_resolved_run env2 req _ id d') by done.
    cbv zeta. unfold field. by rewrite Hgone. }
  split_and!; try (by rewrite Hfirst); try done.
  - unfold d'. by rewrite verified_lookup.
  - unfold d'. by rewrite verified_lookup.
  - unfold d'. by rewrite verified_lookup.
  - by rewrite Hsecond.
  - rewrite Hsecond. apply verifyOtp_lookup_users.
Qed.

Lemma verifyOtp_single_use_witness :
  (verifyOtp env0 req_u1 w_pending).1 = Ok (Verified req_u1) /\
  users (verifyOtp env0 req_u1 w_pending).2
  = [("u1", update_fields 1000050 verified_update alice_pending)] /\
  (verifyOtp (env_at 1000100) req_u1 (verifyOtp env0 req_u1 w_pending).2).1
  = Ok NoPendingOtp.
Proof.
  assert (Date_now env0 < 1300000) as Hnow by (cbn; lia).
  pose proof (verifyOtp_single_use env0 (env_at 1000100) req_u1 w_pending
                "u1" alice_pending (VStr "123456") 1300000
                eq_refl eq_refl eq_refl eq_refl Hnow) as H.
  cbv zeta in H.
  destruct H as (H1 & H2 & _ & _ & _ & _ & _ & _ & H9 & _).
  split; [exact H1|]. split; [exact H2|exact H9].
Defined.

(** C5 as stated fails: at the expiry instant itself the current time is
    not strictly before the stored expiry, and a matching code is
    accepted. *)
Lemma verifyOtp_expiry_boundary_counterexample :
  ~ (forall env req w id d stored e,
        well_formed req = true ->
        resolved req w = Some (id, d) ->
        pending_code env d = Some (stored, e) ->
        ~ (Date_now env < e) ->
        (verifyOtp env req w).1 = Ok Expired).
Proof.
  intros H.
  assert (~ (Date_now (env_at 1300000) < 1300000)) as Hnow by (cbn; lia).
  specialize (H (env_at 1300000) req_u1 w_pending "u1" alice_pending
                (VStr "123456") 1300000 eq_refl eq_refl eq_refl Hnow).
  vm_compute in H. discriminate H.
Qed.

(** C5 (expiry boundary), amended.  On a record with a pending code that
    expires at the instant [e], the attempt fails with Expired exactly
    when the current time is strictly after [e], matching code or not; up
    to and including [e] the outcome is that of the comparison of the
    codes. *)
Theorem verifyOtp_expiry env req w id d stored e :
  well_formed req = true ->
  resolved req w = Some (id, d) ->
  pending_code env d = Some (stored, e) ->
  (verifyOtp env req w).1
  = Ok (if e <? Date_now env then Expired
        else if String.eqb (toString stored) (toString (otp req))
             then Verified req
             else Invalid)
  /\ ((verifyOtp env req w).1 = Ok Expired <-> e < Date_now env).
Proof.
  intros Hwf Hres Hp.
  rewrite (verifyOtp_pending_run env req w id d stored e) by done.
  cbv zeta.
  destruct (e <? Date_now env) eqn:E.
  - split; [done|]. split; [lia|done].
  - destruct (String.eqb _ _); (split; [done|]); (split; [done|lia]).
Qed.

Lemma verifyOtp_expiry_witness :
  (verifyOtp (env_at 1300001) req_u1 w_pending).1 = Ok Expired /\
  (verifyOtp (env_at 1300000) req_u1 w_pending).1 = Ok (Verified req_u1).
Proof.
  split.
  - exact (proj1 (verifyOtp_expiry (env_at 1300001) req_u1 w_pending "u1"
                    alice_pending (VStr "123456") 1300000
                    eq_refl eq_refl eq_refl)).
  - exact (proj1 (verifyOtp_expiry (env_at 1300000) req_u1 w_pending "u1"
                    alice_pending (VStr "123456") 1300000
                    eq_refl eq_refl eq_refl)).
Defined.

(** C6 (verification atomicity on failure).  Every attempt answers.  The
    answer is the success response, or else nothing is committed: the
    collection is unchanged, no write was issued, and the response is an
    error envelope ([success: false]) with a non-empty message, which is
    one of the named failures (a missing field, UserNotFound,
    NoPendingOtp, NoExpiry, Expired, Invalid) or a 500. *)
Theorem verifyOtp_failure_commits_nothing env req w :
  exists resp new st',
    verifyOtp env req w = (Ok resp, mkWorld st' (calls w ++ new)) /\
    (resp = Verified req \/
     (st' = users w /\
      List.filter is_write new = [] /\
      (exists msg, body resp = ErrorBody msg /\ msg <> "") /\
      (In resp [MissingFields; UserNotFound; NoPendingOtp; NoExpiry;
                Expired; Invalid]
       \/ status resp = 500))).
Proof.
  destruct w as [st cs].
  unfold verifyOtp, verifyOtp_lookup, verifyOtp_check.
  run_handler; try absurd_lookup.
  all: name_outcome.
  all: try (left; unfold Verified; back_to_req; done).
  all: right; split_and!; [done|done|by eexists|].
  all: try (by right).
  all: left; cbn; tauto.
Qed.

(** C8 (best-effort identity-provider update).  On an attempt that passes
    every check, a throwing [updateUser] is caught and logged: the
    response is the success response echoing [email] and [uid], the record
    update stands, and one console line follows the attempt.  Response and
    collection are those of the run in which [updateUser] succeeds. *)
Theorem verifyOtp_auth_failure_ignored env req w id d stored e m :
  well_formed req = true ->
  resolved req w = Some (id, d) ->
  pending_code env d = Some (stored, e) ->
  Date_now env <= e ->
  toString (otp req) = toString stored ->
  let failing := verifyOtp (with_updateUser_error env (Some m)) req w in
  let working := verifyOtp (with_updateUser_error env None) req w in
  failing
  = (Ok (Verified req),
     mkWorld
       (alter_doc (update_fields (server_now env) verified_update) id
          (users w))
       (calls (verifyOtp_lookup req w).2
        ++ [DocUpdate id verified_update; AuthUpdateUser (uid req);
            ConsoleError "Failed to update auth user:" m]))
  /\ failing.1 = working.1
  /\ users failing.2 = users working.2.
Proof.
  intros Hwf Hres Hp Hnow Hm failing working. unfold failing, working.
  rewrite !(verifyOtp_pending_run _ req w id d stored e) by done.
  cbv zeta. cbn [Date_now with_updateUser_error server_now].
  rewrite Hm, String.eqb_refl.
  destruct (e <? Date_now env) eqn:E; [lia|done].
Qed.

Lemma verifyOtp_auth_failure_ignored_witness :
  verifyOtp (with_updateUser_error env0 (Some "auth/user-not-found"))
    req_u1 w_pending
  = (Ok (Verified req_u1),
     mkWorld
       [("u1", update_fields 1000050 verified_update alice_pending)]
       [DocGet "u1"; DocUpdate "u1" verified_update;
        AuthUpdateUser (VStr "u1");
        ConsoleError "Failed to update auth user:" "auth/user-not-found"]).
Proof.
  assert (Date_now env0 <= 1300000) as Hnow by (cbn; lia).
  exact (proj1 (verifyOtp_auth_failure_ignored env0 req_u1
                  w_pending "u1" alice_pending (VStr "123456") 1300000
                  "auth/user-not-found" eq_refl eq_refl eq_refl Hnow eq_refl)).
Defined.

(** ** The pair [otp], [otpExpiresAt] *)

(** C9 (pairing invariant).  [sendOtp] writes at most once, a merge whose
    fields hold both [otp] and [otpExpiresAt]; every record of the
    collection after it is a record of the collection before or holds
    both.  [verifyOtp] writes at most once, the update that deletes both;
    every record of the collection after it is a record of the collection
    before or holds neither. *)
Theorem otp_pairing env req w :
  (exists new,
      calls (sendOtp env req w).2 = calls w ++ new /\
      (List.filter is_write new = [] \/
       exists ref,
         List.filter is_write new = [DocSetMerge ref (otp_fields env req)]))
  /\ is_Some (otp_fields env req !! "otp")
  /\ is_Some (otp_fields env req !! "otpExpiresAt")
  /\ Forall (fun kd => kd ∈ users w \/
                       (is_Some (kd.2 !! "otp") /\
                        is_Some (kd.2 !! "otpExpiresAt")))
       (users (sendOtp env req w).2)
  /\ (exists new,
        calls (verifyOtp env req w).2 = calls w ++ new /\
        (List.filter is_write new = [] \/
         exists ref,
           List.filter is_write new = [DocUpdate ref verified_update]))
  /\ In ("otp", DeleteField) verified_update
  /\ In ("otpExpiresAt", DeleteField) verified_update
  /\ Forall (fun kd => kd ∈ users w \/
                       (kd.2 !! "otp" = None /\
                        kd.2 !! "otpExpiresAt" = None))
       (users (verifyOtp env req w).2).
Proof.
  split_and!.
  - destruct (sendOtp_effect env req w) as (resp & new & st' & -> & _ & _ & H).
    exists new. split; [done|].
    destruct (body resp); [| |done].
    + left. tauto.
    + right. destruct H as (_ & ref & ? & _). eauto.
  - rewrite otp_fields_otp. eauto.
  - rewrite otp_fields_expiry. eauto.
  - apply (sendOtp_users_shape
             (fun d => is_Some (d !! "otp") /\ is_Some (d !! "otpExpiresAt"))).
    + intros d. split; apply lookup_union_is_Some; left.
      * rewrite otp_fields_otp; eauto.
      * rewrite otp_fields_expiry; eauto.
    + rewrite otp_fields_otp, otp_fields_expiry. eauto.
  - destruct (verifyOtp_effect env req w) as (resp & new & st' & -> & H).
    exists new. split; [done|].
    destruct (body resp); [|done|].
    + left. tauto.
    + right. destruct H as (_ & ref & ? & _). eauto.
  - cbn. tauto.
  - cbn. tauto.
  - apply (verifyOtp_users_shape
             (fun d => d !! "otp" = None /\ d !! "otpExpiresAt" = None)).
    intros d. by rewrite !verified_lookup.
Qed.

(** ** More on issuance *)

Lemma sendOtp_guard req :
  negb (truthy (email req)) || negb (truthy (otp req))
  = negb (truthy (email req) && truthy (otp req)).
Proof. by destruct (truthy (email req)), (truthy (otp req)). Qed.

Lemma verifyOtp_guard req :
  negb (truthy (email req)) || negb (truthy (otp req))
  || negb (truthy (uid req)) = negb (well_formed req).
Proof.
  unfold well_formed.
  by destruct (truthy (email req)), (truthy (otp req)), (truthy (uid req)).
Qed.

Lemma well_formed_inv req :
  well_formed req = true ->
  truthy (email req) = true /\ truthy (otp req) = true
  /\ truthy (uid req) = true.
Proof.
  unfold well_formed.
  by destruct (truthy (email req)), (truthy (otp req)), (truthy (uid req)).
Qed.

Lemma doc_invalid v :
  is_doc_id v = false -> doc v = throw invalid_path_message.
Proof.
  unfold doc, is_doc_id. destruct v; try done.
  by destruct (String.eqb s "").
Qed.

Lemma string_of_Z_nonempty n : string_of_Z n <> "".
Proof.
  unfold string_of_Z. destruct (Z.to_int n) as [u|u]; [|done].
  by destruct u.
Qed.

Lemma toString_nonempty v : truthy v = true -> toString v <> "".
Proof.
  destruct v as [| |[|]|n|s|t]; cbn; try done.
  - intros _. apply string_of_Z_nonempty.
  - destruct (String.eqb s "") eqn:E; [done|]. by apply String.eqb_neq in E.
Qed.

Lemma otp_fields_other env req name :
  name <> "otp" -> name <> "otpExpiresAt" -> otp_fields env req !! name = None.
Proof. intros. unfold otp_fields. by simplify_map_eq. Qed.

Lemma lookup_add_doc id d0 (st : Store) k :
  lookup_doc id st = None ->
  lookup_doc k (add_doc id d0 st)
  = if String.eqb id k then Some d0 else lookup_doc k st.
Proof.
  intros Hnone. induction st as [|[k' d'] st IH]; simpl; [done|].
  simpl in Hnone. destruct (String.eqb k' id) eqn:Ek; [done|].
  destruct (String.ltb id k'); simpl; [done|].
  rewrite IH by done.
  destruct (String.eqb k' k) eqn:E1; [|done].
  apply String.eqb_eq in E1. subst k'.
  destruct (String.eqb id k) eqn:E2; [|done].
  apply String.eqb_eq in E2. subst. by rewrite String.eqb_refl in Ek.
Qed.

(** Reading a collection after a merge. *)
Lemma lookup_merge_doc id (fields : Doc) (st : Store) k :
  lookup_doc k (merge_doc id fields st)
  = if String.eqb id k
    then Some (match lookup_doc k st with
               | Some d => fields ∪ d
               | None => fields
               end)
    else lookup_doc k st.
Proof.
  unfold merge_doc. destruct (lookup_doc id st) as [d|] eqn:E.
  - rewrite lookup_alter_doc. rewrite (String.eqb_sym k id).
    destruct (String.eqb id k) eqn:E1.
    + apply String.eqb_eq in E1. subst. by rewrite E.
    + by destruct (lookup_doc k st).
  - rewrite lookup_add_doc by done.
    destruct (String.eqb id k) eqn:E1; [|done].
    apply String.eqb_eq in E1. subst. by rewrite E.
Qed.

(** The lookup of [sendOtp] on an identifier [doc] accepts. *)
Lemma sendOtp_lookup_run req w a :
  uid req = VStr a -> a <> "" ->
  sendOtp_lookup req w
  = (Ok (Some (issue_target (users w) a)),
     mkWorld (users w) (calls w ++ issue_lookups (users w) a)).
Proof.
  intros Hu Ha. apply String.eqb_neq in Ha.
  unfold sendOtp_lookup, issue_target, issue_lookups. rewrite Hu. cbn [truthy].
  rewrite Ha. cbn [negb].
  cbv [bind ret throw emit get doc where_limit1 snap_exists snap_data snap_ref].
  rewrite Ha. cbn [users calls].
  destruct (lookup_doc a (users w)) as [d|]; cbn [negb users calls]; [done|].
  destruct (first_where "uid" (VStr a) (users w)) as [[k d]|];
    cbn [users calls]; by rewrite <- app_assoc.
Qed.

Lemma sendOtp_issue_run env req w a :
  truthy (email req) = true -> truthy (otp req) = true ->
  uid req = VStr a -> a <> "" ->
  sendMail_error env = None ->
  sendOtp env req w
  = (Ok OtpSent,
     mkWorld
       (merge_doc (issue_target (users w) a) (otp_fields env req) (users w))
       (calls w
        ++ MailSend (email req) (toString (otp req))
           :: issue_lookups (users w) a
        ++ [DocSetMerge (issue_target (users w) a) (otp_fields env req)])).
Proof.
  intros He Ho Hu Ha Hm.
  unfold sendOtp. rewrite He, Ho. cbn [negb orb].
  unfold try_catch, bind at 1, sendMail, bind at 1, emit.
  rewrite Hm. unfold ret at 1. unfold bind at 1.
  rewrite (sendOtp_lookup_run req _ a) by done.
  cbn [users calls].
  cbv [bind ret set_merge emit]. cbn [users calls].
  unfold OtpSent. do 2 f_equal. by rewrite <- !app_assoc.
Qed.

(** X1.  The response of [sendOtp], for a request whose [otp] is a JSON
    scalar and whose [uid], when a non-empty string, is a valid document
    id: 400 when [email] or [otp] is falsy; else 500 with the transport's
    message when the mail is not delivered; else success when [uid] is a
    document id and 500 when it is absent, empty or not a string. *)
Theorem sendOtp_outcome env req w :
  json_scalar (otp req) = true ->
  uid_in_scope (uid req) = true ->
  (sendOtp env req w).1
  = Ok (if negb (truthy (email req) && truthy (otp req))
        then errorResponse 400 "Missing email or otp"
        else match sendMail_error env with
             | Some m => errorResponse 500 ("Failed to send OTP. " ++ m)%string
             | None =>
                 if is_doc_id (uid req) then OtpSent
                 else errorResponse 500
                        ("Failed to send OTP. " ++ invalid_path_message)%string
             end).
Proof.
  intros _ _.
  unfold sendOtp. rewrite sendOtp_guard.
  destruct (negb _); [done|].
  destruct w as [st cs]. unfold sendOtp_lookup, is_doc_id.
  run_handler; done.
Qed.

Lemma sendOtp_outcome_witness :
  (sendOtp env0 req_u1 w0).1 = Ok OtpSent
  /\ (sendOtp env0 req_no_otp w0).1
     = Ok (errorResponse 400 "Missing email or otp")
  /\ (sendOtp env_mail_down req_u1 w0).1
     = Ok (errorResponse 500 "Failed to send OTP. ECONNREFUSED")
  /\ (sendOtp env0 req_email_only w0).1
     = Ok (errorResponse 500
             ("Failed to send OTP. " ++ invalid_path_message)%string).
Proof.
  split_and!.
  - exact (sendOtp_outcome env0 req_u1 w0 eq_refl eq_refl).
  - exact (sendOtp_outcome env0 req_no_otp w0 eq_refl eq_refl).
  - exact (sendOtp_outcome env_mail_down req_u1 w0 eq_refl eq_refl).
  - exact (sendOtp_outcome env0 req_email_only w0 eq_refl eq_refl).
Defined.

(** X2.  Among the requests whose [otp] is a JSON scalar: one without
    [email] or [otp] causes no call at all and leaves the collection
    alone; any other causes exactly one mail to the submitted address,
    carrying the code, before every other call. *)
Theorem sendOtp_one_mail_first env req w :
  json_scalar (otp req) = true ->
  exists new,
    calls (sendOtp env req w).2 = calls w ++ new /\
    if truthy (email req) && truthy (otp req)
    then exists rest,
        new = MailSend (email req) (toString (otp req)) :: rest /\
        List.filter is_mail rest = []
    else new = [] /\ users (sendOtp env req w).2 = users w.
Proof.
  intros _.
  destruct w as [st cs]. unfold sendOtp, sendOtp_lookup.
  run_handler.
  all: rewrite <- ?app_assoc; cbn [app].
  all: first [ eexists; split; [reflexivity|]
             | exists []; split; [by rewrite app_nil_r|] ].
  all: destruct (truthy (email req)), (truthy (otp req)); simplify_eq/=.
  all: try done.
  all: eexists; split; [reflexivity|done].
Qed.

Lemma sendOtp_one_mail_first_witness :
  exists new,
    calls (sendOtp env0 req_number w0).2 = calls w0 ++ new /\
    exists rest,
      new = MailSend (VStr "a@x.com") "123456" :: rest /\
      List.filter is_mail rest = [].
Proof.
  exact (sendOtp_one_mail_first env0 req_number w0 eq_refl).
Defined.

(** X3.  With the mail delivered, an [otp] that is a JSON scalar and a
    [uid] that is a valid document id, [sendOtp] succeeds after one merge
    into [issue_target]: the document with id
    [uid] when it exists, else the first document whose [uid] field is
    that identifier, else a new document with id [uid].  That document
    then holds the merged fields over its previous ones, and every other
    document is as before. *)
Theorem sendOtp_writes_target env req w a k :
  truthy (email req) = true -> truthy (otp req) = true ->
  json_scalar (otp req) = true ->
  uid req = VStr a -> valid_doc_id a = true ->
  sendMail_error env = None ->
  let t := issue_target (users w) a in
  sendOtp env req w
  = (Ok OtpSent,
     mkWorld (merge_doc t (otp_fields env req) (users w))
       (calls w
        ++ MailSend (email req) (toString (otp req))
           :: issue_lookups (users w) a
        ++ [DocSetMerge t (otp_fields env req)]))
  /\ lookup_doc k (users (sendOtp env req w).2)
     = if String.eqb t k
       then Some (match lookup_doc k (users w) with
                  | Some d => otp_fields env req ∪ d
                  | None => otp_fields env req
                  end)
       else lookup_doc k (users w).
Proof.
  intros He Ho _ Hu Ha%valid_doc_id_nonempty Hm t.
  rewrite (sendOtp_issue_run env req w a) by done.
  split; [done|]. cbn [snd users]. apply lookup_merge_doc.
Qed.

Lemma sendOtp_writes_target_witness :
  issue_target (users w_legacy) "u1" = "u2"
  /\ lookup_doc "u2" (users (sendOtp env0 req_u1 w_legacy).2)
     = Some (otp_fields env0 req_u1 ∪ bob).
Proof.
  split; [reflexivity|].
  exact (proj2 (sendOtp_writes_target env0 req_u1 w_legacy "u1" "u2"
                  eq_refl eq_refl eq_refl eq_refl eq_refl eq_refl)).
Defined.

(** X4.  When the mail is delivered and [uid] is absent, empty or not a
    string, [sendOtp] has sent the mail, then fails on [doc(uid)]: it
    answers 500, reads and writes nothing. *)
Theorem sendOtp_invalid_uid env req w :
  truthy (email req) = true -> truthy (otp req) = true ->
  sendMail_error env = None ->
  is_doc_id (uid req) = false ->
  sendOtp env req w
  = (Ok (errorResponse 500
           ("Failed to send OTP. " ++ invalid_path_message)%string),
     mkWorld (users w)
       (calls w ++ [MailSend (email req) (toString (otp req));
                    ConsoleError "sendOtp error" invalid_path_message])).
Proof.
  intros He Ho Hm Hid.
  unfold sendOtp, sendOtp_lookup.
  rewrite He, Ho, (doc_invalid _ Hid). cbn [negb orb].
  cbv [try_catch bind sendMail emit throw ret console_error].
  rewrite Hm. cbn [users calls]. by rewrite <- !app_assoc.
Qed.

Lemma sendOtp_invalid_uid_witness :
  sendOtp env0 req_num_uid w0
  = (Ok (errorResponse 500
           ("Failed to send OTP. " ++ invalid_path_message)%string),
     mkWorld (users w0)
       [MailSend (VStr "a@x.com") "123456";
        ConsoleError "sendOtp error" invalid_path_message]).
Proof.
  exact (sendOtp_invalid_uid env0 req_num_uid w0
           eq_refl eq_refl eq_refl eq_refl).
Defined.

(** X5.  The merge is not destructive: whatever [sendOtp] does, every
    field other than [otp] and [otpExpiresAt] of every document reads as
    before. *)
Theorem sendOtp_preserves_other_fields env req w k name :
  name <> "otp" -> name <> "otpExpiresAt" ->
  lookup_doc k (users (sendOtp env req w).2) ≫= (fun d => d !! name)
  = lookup_doc k (users w) ≫= (fun d => d !! name).
Proof.
  intros Hn1 Hn2.
  destruct (sendOtp_effect env req w) as (resp & new & st' & -> & _ & _ & H).
  cbn [snd users].
  destruct (body resp); [| |done].
  - by destruct H as (-> & _).
  - destruct H as (_ & ref & _ & ->). rewrite lookup_merge_doc.
    destruct (String.eqb ref k); [|done].
    destruct (lookup_doc k (users w)) as [d|]; cbn.
    + apply lookup_union_r. by apply otp_fields_other.
    + by apply otp_fields_other.
Qed.

Lemma sendOtp_preserves_other_fields_witness :
  lookup_doc "u1" (users (sendOtp env0 req_u1 w0).2)
    ≫= (fun d => d !! "name")
  = Some (VStr "Alice").
Proof.
  assert ("name" <> "otp") as H1 by discriminate.
  assert ("name" <> "otpExpiresAt") as H2 by discriminate.
  exact (sendOtp_preserves_other_fields env0 req_u1 w0 "u1" "name" H1 H2).
Defined.

(** ** Issuance, then verification *)

Lemma otp_fields_uid env req : otp_fields env req !! "uid" = None.
Proof. unfold otp_fields. by simplify_map_eq. Qed.

(** After a merge into [issue_target], a verification request with the
    same [uid] resolves to that document, which holds the merged
    fields. *)
Lemma resolved_after_merge req w' (st : Store) a (fields : Doc) :
  uid req = VStr a -> a <> "" -> truthy (email req) = true ->
  fields !! "uid" = None ->
  users w' = merge_doc (issue_target st a) fields st ->
  exists d', resolved req w' = Some (issue_target st a, d') /\ fields ⊆ d'.
Proof.
  intros Hu Ha He Hf Hw'.
  assert (email req <> VUndefined) as He' by (by intros E; rewrite E in He).
  unfold resolved. rewrite (verifyOtp_lookup_run req w' a) by done.
  rewrite Hw'. unfold issue_target.
  destruct (lookup_doc a st) as [d|] eqn:El.
  - rewrite lookup_merge_doc, String.eqb_refl, El. cbn.
    eexists. split; [done|]. apply map_union_subseteq_l.
  - destruct (first_where "uid" (VStr a) st) as [[k d]|] eqn:Eq.
    + destruct (first_where_lookup _ _ _ _ _ Eq) as [d0 Hd0].
      assert (String.eqb k a = false) as Hka.
      { apply String.eqb_neq. intros ->. congruence. }
      rewrite lookup_merge_doc, Hka, El.
      unfold merge_doc. rewrite Hd0.
      rewrite first_where_alter_doc
        by (intros x; by apply lookup_union_r).
      rewrite Eq. cbn. rewrite String.eqb_refl.
      eexists. split; [done|]. apply map_union_subseteq_l.
    + rewrite lookup_merge_doc, String.eqb_refl, El. cbn.
      eexists. split; [done|done].
Qed.

Lemma verifyOtp_after_issue env env2 req req2 w a :
  truthy (email req) = true -> truthy (otp req) = true ->
  uid req = VStr a -> a <> "" ->
  sendMail_error env = None ->
  well_formed req2 = true -> uid req2 = VStr a ->
  (verifyOtp env2 req2 (sendOtp env req w).2).1
  = Ok (if Date_now env + otp_ttl_ms <? Date_now env2 then Expired
        else if String.eqb (toString (otp req)) (toString (otp req2))
             then Verified req2
             else Invalid).
Proof.
  intros He Ho Hu Ha Hm Hwf Hu2.
  destruct (well_formed_inv _ Hwf) as (He2 & _ & _).
  rewrite (sendOtp_issue_run env req w a) by done. cbn [snd].
  edestruct (resolved_after_merge req2
               (mkWorld (merge_doc (issue_target (users w) a)
                           (otp_fields env req) (users w))
                  (calls w
                   ++ MailSend (email req) (toString (otp req))
                      :: issue_lookups (users w) a
                   ++ [DocSetMerge (issue_target (users w) a)
                         (otp_fields env req)]))
               (users w) a (otp_fields env req))
    as (d' & Hres & Hsub); [done|done|done|apply otp_fields_uid|done|].
  assert (pending_code env2 d'
          = Some (VStr (toString (otp req)), Date_now env + otp_ttl_ms)) as Hp.
  { unfold pending_code, field.
    rewrite (lookup_weaken _ _ _ _ (otp_fields_otp env req) Hsub).
    rewrite (lookup_weaken _ _ _ _ (otp_fields_expiry env req) Hsub).
    cbn. pose proof (toString_nonempty _ Ho) as Hne.
    apply String.eqb_neq in Hne. by rewrite Hne. }
  rewrite (verifyOtp_pending_run env2 req2 _ _ d' _ _ Hwf Hres Hp).
  cbv zeta. cbn [toString].
  destruct (_ <? _); [done|]. by destruct (String.eqb _ _).
Qed.

(** X6.  Round trip.  A well-formed request whose [uid] is a valid
    document id and whose [otp] is a JSON scalar, issued with the mail
    delivered and then submitted for verification, is
    verified up to and including five minutes after issuance and answered
    Expired later, whatever the collection held before: an existing
    record, a tagged one, or none. *)
Theorem issue_then_verify env env2 req w a :
  well_formed req = true ->
  json_scalar (otp req) = true ->
  uid req = VStr a ->
  valid_doc_id a = true ->
  sendMail_error env = None ->
  (verifyOtp env2 req (sendOtp env req w).2).1
  = Ok (if Date_now env + 300000 <? Date_now env2 then Expired
        else Verified req).
Proof.
  intros Hwf _ Hu Ha%valid_doc_id_nonempty Hm.
  destruct (well_formed_inv _ Hwf) as (He & Ho & Hut).
  rewrite (verifyOtp_after_issue env env2 req req w a) by done.
  by rewrite String.eqb_refl.
Qed.

Lemma issue_then_verify_witness :
  (verifyOtp (env_at 1300000) req_u1 (sendOtp env0 req_u1 w0).2).1
  = Ok (Verified req_u1)
  /\ (verifyOtp (env_at 1300001) req_ghost (sendOtp env0 req_ghost w0).2).1
     = Ok Expired.
Proof.
  split.
  - exact (issue_then_verify env0 (env_at 1300000) req_u1 w0 "u1"
             eq_refl eq_refl eq_refl eq_refl eq_refl).
  - exact (issue_then_verify env0 (env_at 1300001) req_ghost w0 "ghost"
             eq_refl eq_refl eq_refl eq_refl eq_refl).
Defined.

(** X7.  Re-issue.  After two issuances for the same [uid], a valid
    document id, with codes that are JSON scalars, a verification depends
    on the second one only: it is answered Expired
    after the second code's five minutes, else verified when the
    submitted code has the string form of the second code, else Invalid.
    The first code and its expiry play no part. *)
Theorem reissue_latest_code_wins env1 env2 env3 req1 req2 req3 w a :
  valid_doc_id a = true ->
  truthy (email req1) = true -> truthy (otp req1) = true ->
  json_scalar (otp req1) = true ->
  uid req1 = VStr a -> sendMail_error env1 = None ->
  truthy (email req2) = true -> truthy (otp req2) = true ->
  json_scalar (otp req2) = true ->
  uid req2 = VStr a -> sendMail_error env2 = None ->
  well_formed req3 = true -> json_scalar (otp req3) = true ->
  uid req3 = VStr a ->
  let w1 := (sendOtp env1 req1 w).2 in
  let w2 := (sendOtp env2 req2 w1).2 in
  (verifyOtp env3 req3 w2).1
  = Ok (if Date_now env2 + 300000 <? Date_now env3 then Expired
        else if String.eqb (toString (otp req2)) (toString (otp req3))
             then Verified req3
             else Invalid).
Proof.
  intros Ha%valid_doc_id_nonempty He1 Ho1 _ Hu1 Hm1 He2 Ho2 _ Hu2 Hm2
    Hwf _ Hu3 w1 w2.
  unfold w2. by apply (verifyOtp_after_issue env2 env3 req2 req3 w1 a).
Qed.

Lemma reissue_latest_code_wins_witness :
  let w2 := (sendOtp (env_at 1000100) req_second
               (sendOtp env0 req_u1 w0).2).2 in
  (verifyOtp (env_at 1000200) req_u1 w2).1 = Ok Invalid
  /\ (verifyOtp (env_at 1000200) req_second w2).1 = Ok (Verified req_second).
Proof.
  split.
  - exact (reissue_latest_code_wins env0 (env_at 1000100) (env_at 1000200)
             req_u1 req_second req_u1 w0 "u1"
             eq_refl eq_refl eq_refl eq_refl eq_refl eq_refl eq_refl eq_refl
             eq_refl eq_refl eq_refl eq_refl eq_refl eq_refl).
  - exact (reissue_latest_code_wins env0 (env_at 1000100) (env_at 1000200)
             req_u1 req_second req_second w0 "u1"
             eq_refl eq_refl eq_refl eq_refl eq_refl eq_refl eq_refl eq_refl
             eq_refl eq_refl eq_refl eq_refl eq_refl eq_refl).
Defined.

(** ** More on verification *)

Lemma resolved_run req w a :
  uid req = VStr a -> a <> "" -> email req <> VUndefined ->
  resolved req w
  = match lookup_doc a (users w) with
    | Some d => Some (a, d)
    | None =>
        match first_where "uid" (VStr a) (users w) with
        | Some kd => Some kd
        | None => first_where "email" (email req) (users w)
        end
    end.
Proof.
  intros Hu Ha He. unfold resolved.
  rewrite (verifyOtp_lookup_run req w a) by done.
  destruct (lookup_doc a (users w)); [done|].
  destruct (first_where "uid" _ _) as [[??]|]; [done|].
  by destruct (first_where "email" _ _) as [[??]|].
Qed.

(** X8.  [verifyOtp] answers "Missing email, uid, or otp" exactly when
    one of the three fields is falsy (absent, null, false, 0 or the empty
    string), and then makes no call and changes nothing. *)
Theorem verifyOtp_missing_field env req w :
  ((verifyOtp env req w).1 = Ok MissingFields <-> well_formed req = false)
  /\ if well_formed req then True
     else verifyOtp env req w = (Ok MissingFields, w).
Proof.
  unfold verifyOtp. rewrite verifyOtp_guard.
  destruct (well_formed req); cbn [negb]; [|done].
  split; [|done]. split; [|done].
  destruct w as [st cs]. unfold verifyOtp_lookup, verifyOtp_check.
  run_handler; done.
Qed.

(** X9.  A well-formed request whose [uid] is not a string fails on
    [doc(uid)] before any store call: the answer is a 500, not a 400. *)
Theorem verifyOtp_invalid_uid env req w :
  well_formed req = true ->
  is_doc_id (uid req) = false ->
  verifyOtp env req w
  = (Ok (errorResponse 500
           ("Failed to verify OTP. " ++ invalid_path_message)%string),
     mkWorld (users w)
       (calls w ++ [ConsoleError "verifyOtp error" invalid_path_message])).
Proof.
  intros Hwf Hid.
  unfold verifyOtp. rewrite verifyOtp_guard, Hwf. cbn [negb].
  unfold verifyOtp_lookup. rewrite (doc_invalid _ Hid).
  by cbv [try_catch bind emit throw ret console_error].
Qed.

Lemma verifyOtp_invalid_uid_witness :
  verifyOtp env0 req_num_uid w_pending
  = (Ok (errorResponse 500
           ("Failed to verify OTP. " ++ invalid_path_message)%string),
     mkWorld (users w_pending)
       [ConsoleError "verifyOtp error" invalid_path_message]).
Proof.
  exact (verifyOtp_invalid_uid env0 req_num_uid w_pending eq_refl eq_refl).
Defined.

(** X10.  A well-formed request whose [uid] is a valid document id is
    answered "User not found", after the three lookups and with the collection unchanged,
    exactly when no document has that id, none is tagged with it and none
    has the submitted email. *)
Theorem verifyOtp_user_not_found env req w a :
  well_formed req = true ->
  uid req = VStr a ->
  valid_doc_id a = true ->
  verifyOtp env req w
  = (Ok UserNotFound,
     mkWorld (users w)
       (calls w ++ [DocGet a; QueryWhere "uid" (VStr a);
                    QueryWhere "email" (email req)]))
  <-> lookup_doc a (users w) = None
      /\ first_where "uid" (VStr a) (users w) = None
      /\ first_where "email" (email req) (users w) = None.
Proof.
  intros Hwf Hu Ha%valid_doc_id_nonempty.
  destruct (well_formed_inv _ Hwf) as (He & _ & Hut).
  assert (email req <> VUndefined) as He' by (by intros E; rewrite E in He).
  destruct (resolved req w) as [[id d]|] eqn:Hres.
  - split.
    + rewrite (verifyOtp_resolved_run env req w id d) by done. cbv zeta.
      repeat (match goal with
              | |- context [if ?b then _ else _] => destruct b
              end; try done).
    + intros (H1 & H2 & H3).
      rewrite (resolved_run req w a) in Hres by done.
      by rewrite H1, H2, H3 in Hres.
  - rewrite (resolved_run req w a) in Hres by done.
    destruct (lookup_doc a (users w)) eqn:H1; [done|].
    destruct (first_where "uid" _ _) eqn:H2; [done|].
    split; [done|]. intros _.
    unfold verifyOtp. rewrite verifyOtp_guard, Hwf. cbn [negb].
    unfold try_catch, bind at 1.
    rewrite (verifyOtp_lookup_run req w a) by done.
    rewrite H1, H2, Hres. by cbn.
Qed.

Lemma verifyOtp_user_not_found_witness :
  verifyOtp env0 req_ghost w0
  = (Ok UserNotFound,
     mkWorld (users w0)
       [DocGet "ghost"; QueryWhere "uid" (VStr "ghost");
        QueryWhere "email" (VStr "nobody@x.com")]).
Proof.
  apply (proj2 (verifyOtp_user_not_found env0 req_ghost w0 "ghost"
                  eq_refl eq_refl eq_refl)).
  split_and!; reflexivity.
Defined.

(** X11.  On a record whose [otp] or [otpExpiresAt] is absent or falsy,
    the answer is NoPendingOtp when the code is the missing one and
    NoExpiry otherwise, whatever code is submitted; nothing changes. *)
Theorem verifyOtp_incomplete_pair env req w id d :
  well_formed req = true ->
  resolved req w = Some (id, d) ->
  truthy (field d "otp") && truthy (field d "otpExpiresAt") = false ->
  (verifyOtp env req w).1
  = Ok (if truthy (field d "otp") then NoExpiry else NoPendingOtp)
  /\ users (verifyOtp env req w).2 = users w.
Proof.
  intros Hwf Hres Hp.
  rewrite (verifyOtp_resolved_run env req w id d) by done.
  cbv zeta.
  destruct (truthy (field d "otp")); cbn [negb snd fst].
  - cbn in Hp. rewrite Hp. cbn [negb snd fst].
    split; [done|apply verifyOtp_lookup_users].
  - split; [done|apply verifyOtp_lookup_users].
Qed.

Lemma verifyOtp_incomplete_pair_witness :
  (verifyOtp env0 req_u4 w_dave).1 = Ok NoExpiry
  /\ (verifyOtp env0 req_u1 w0).1 = Ok NoPendingOtp.
Proof.
  split.
  - exact (proj1 (verifyOtp_incomplete_pair env0 req_u4 w_dave "u4" dave
                    eq_refl eq_refl eq_refl)).
  - exact (proj1 (verifyOtp_incomplete_pair env0 req_u1 w0 "u1" alice
                    eq_refl eq_refl eq_refl)).
Defined.

(** X12.  A stored expiry that does not read as a date (an Invalid Date)
    never expires: the comparison of line 129 is false at every time, and
    the answer is that of the comparison of the codes. *)
Theorem verifyOtp_unreadable_expiry env req w id d :
  well_formed req = true ->
  resolved req w = Some (id, d) ->
  truthy (field d "otp") = true ->
  truthy (field d "otpExpiresAt") = true ->
  expiry_date env (field d "otpExpiresAt") = None ->
  (verifyOtp env req w).1
  = Ok (if String.eqb (toString (field d "otp")) (toString (otp req))
        then Verified req
        else Invalid).
Proof.
  intros Hwf Hres Ho Hx Hd.
  rewrite (verifyOtp_resolved_run env req w id d) by done.
  cbv zeta. rewrite Ho, Hx, Hd. cbn [negb now_after].
  by destruct (String.eqb _ _).
Qed.

Lemma verifyOtp_unreadable_expiry_witness :
  (verifyOtp (env_at 9999999999999) req_u3 w_carol).1 = Ok (Verified req_u3).
Proof.
  exact (verifyOtp_unreadable_expiry (env_at 9999999999999) req_u3 w_carol
           "u3" carol eq_refl eq_refl eq_refl eq_refl eq_refl).
Defined.

(** X13.  Verification through the email fallback.  When the submitted
    [uid] is a valid document id and no document has it as id or tag, the record with the submitted email
    is the one checked and updated; it is another record than [uid]
    names, and the identity provider is called with the submitted
    [uid]. *)
Theorem verifyOtp_email_fallback env req w a k d stored e :
  well_formed req = true ->
  uid req = VStr a ->
  valid_doc_id a = true ->
  lookup_doc a (users w) = None ->
  first_where "uid" (VStr a) (users w) = None ->
  first_where "email" (email req) (users w) = Some (k, d) ->
  pending_code env d = Some (stored, e) ->
  Date_now env <= e ->
  toString (otp req) = toString stored ->
  k <> a /\
  verifyOtp env req w
  = (Ok (Verified req),
     mkWorld
       (alter_doc (update_fields (server_now env) verified_update) k
          (users w))
       (calls w
        ++ [DocGet a; QueryWhere "uid" (VStr a);
            QueryWhere "email" (email req);
            DocUpdate k verified_update; AuthUpdateUser (VStr a)]
        ++ auth_log env)).
Proof.
  intros Hwf Hu Ha%valid_doc_id_nonempty H1 H2 H3 Hp Hnow Hm.
  destruct (well_formed_inv _ Hwf) as (He & _ & Hut).
  assert (email req <> VUndefined) as He' by (by intros E; rewrite E in He).
  split.
  { intros ->. apply first_where_lookup in H3 as [? ?]. congruence. }
  assert (resolved req w = Some (k, d)) as Hres.
  { rewrite (resolved_run req w a) by done. by rewrite H1, H2. }
  rewrite (verifyOtp_pending_run env req w k d stored e) by done.
  cbv zeta. rewrite Hm, String.eqb_refl.
  destruct (e <? Date_now env) eqn:E; [lia|].
  rewrite (verifyOtp_lookup_run req w a) by done.
  rewrite H1, H2, H3, Hu. cbn [snd calls]. do 2 f_equal.
  by rewrite <- !app_assoc.
Qed.

Lemma verifyOtp_email_fallback_witness :
  verifyOtp env0 req_zz w_pending
  = (Ok (Verified req_zz),
     mkWorld [("u1", update_fields 1000050 verified_update alice_pending)]
       [DocGet "zz"; QueryWhere "uid" (VStr "zz");
        QueryWhere "email" (VStr "a@x.com");
        DocUpdate "u1" verified_update; AuthUpdateUser (VStr "zz")]).
Proof.
  assert (Date_now env0 <= 1300000) as Hnow by (cbn; lia).
  exact (proj2 (verifyOtp_email_fallback env0 req_zz w_pending "zz" "u1"
                  alice_pending (VStr "123456") 1300000
                  eq_refl eq_refl eq_refl eq_refl eq_refl eq_refl eq_refl
                  Hnow eq_refl)).
Defined.

(** ** What the handlers leave alone *)

(** X14.  Whatever [verifyOtp] does, every field other than
    [emailVerified], [otp], [otpExpiresAt] and [verifiedAt] of every
    document reads as before. *)
Theorem verifyOtp_preserves_other_fields env req w k name :
  name <> "emailVerified" -> name <> "otp" ->
  name <> "otpExpiresAt" -> name <> "verifiedAt" ->
  lookup_doc k (users (verifyOtp env req w).2) ≫= (fun d => d !! name)
  = lookup_doc k (users w) ≫= (fun d => d !! name).
Proof.
  intros Hn1 Hn2 Hn3 Hn4.
  destruct (verifyOtp_effect env req w) as (resp & new & st' & -> & H).
  cbn [snd users].
  destruct (body resp); [|done|].
  - by destruct H as (-> & _).
  - destruct H as (_ & ref & _ & ->). rewrite lookup_alter_doc.
    destruct (lookup_doc k (users w)) as [d|];
      cbn [fmap option_fmap option_map mbind option_bind]; [|done].
    destruct (String.eqb k ref); [|done].
    rewrite verified_lookup. by repeat case_decide.
Qed.

Lemma verifyOtp_preserves_other_fields_witness :
  lookup_doc "u1" (users (verifyOtp env0 req_u1 w_pending).2)
    ≫= (fun d => d !! "email")
  = Some (VStr "a@x.com").
Proof.
  assert ("email" <> "emailVerified") as H1 by discriminate.
  assert ("email" <> "otp") as H2 by discriminate.
  assert ("email" <> "otpExpiresAt") as H3 by discriminate.
  assert ("email" <> "verifiedAt") as H4 by discriminate.
  exact (verifyOtp_preserves_other_fields env0 req_u1 w_pending "u1" "email"
           H1 H2 H3 H4).
Defined.

(** X15.  No handler deletes a record, and [emailVerified] is never
    reset: a document that exists still exists after either handler;
    [sendOtp] leaves its [emailVerified] as it was, and [verifyOtp]
    leaves it as it was or sets it to true. *)
Theorem records_persist env req w k d :
  lookup_doc k (users w) = Some d ->
  (exists d1,
      lookup_doc k (users (sendOtp env req w).2) = Some d1 /\
      d1 !! "emailVerified" = d !! "emailVerified")
  /\ (exists d2,
        lookup_doc k (users (verifyOtp env req w).2) = Some d2 /\
        (d2 !! "emailVerified" = d !! "emailVerified" \/
         d2 !! "emailVerified" = Some (VBool true))).
Proof.
  intros Hk. split.
  - destruct (sendOtp_effect env req w) as (resp & new & st' & -> & _ & _ & H).
    cbn [snd users].
    destruct (body resp); [| |done].
    + destruct H as (-> & _). eauto.
    + destruct H as (_ & ref & _ & ->). rewrite lookup_merge_doc, Hk.
      destruct (String.eqb ref k); [|eauto].
      eexists. split; [done|]. apply lookup_union_r.
      by apply otp_fields_other.
  - destruct (verifyOtp_effect env req w) as (resp & new & st' & -> & H).
    cbn [snd users].
    destruct (body resp); [|done|].
    + destruct H as (-> & _). eauto.
    + destruct H as (_ & ref & _ & ->). rewrite lookup_alter_doc, Hk.
      cbn [fmap option_fmap option_map].
      destruct (String.eqb k ref); [|eauto].
      eexists. split; [done|]. right. by rewrite verified_lookup.
Qed.

Lemma records_persist_witness :
  (exists d1,
      lookup_doc "u1" (users (sendOtp env0 req_u1 w_pending).2) = Some d1 /\
      d1 !! "emailVerified" = None)
  /\ (exists d2,
        lookup_doc "u1" (users (verifyOtp env0 req_u1 w_pending).2)
        = Some d2 /\
        (d2 !! "emailVerified" = None \/
         d2 !! "emailVerified" = Some (VBool true))).
Proof.
  exact (records_persist env0 req_u1 w_pending "u1" alice_pending eq_refl).
Defined.

(** X16.  [sendOtp] never updates a document and never calls the identity
    provider; [verifyOtp] never sends mail, never merges into a document
    and never warns. *)
Theorem handlers_never env req w :
  (exists new,
      calls (sendOtp env req w).2 = calls w ++ new /\
      List.filter is_update new = [] /\
      List.filter is_auth new = [])
  /\ (exists new,
        calls (verifyOtp env req w).2 = calls w ++ new /\
        List.filter is_mail new = [] /\
        List.filter is_merge new = [] /\
        List.filter is_warning new = []).
Proof.
  destruct w as [st cs]. split.
  - unfold sendOtp, sendOtp_lookup. run_handler.
    all: rewrite <- ?app_assoc; cbn [app].
    all: first [ eexists; split; [reflexivity|]
               | exists []; split; [by rewrite app_nil_r|] ]; done.
  - unfold verifyOtp, verifyOtp_lookup, verifyOtp_check. run_handler.
    all: rewrite <- ?app_assoc; cbn [app].
    all: first [ eexists; split; [reflexivity|]
               | exists []; split; [by rewrite app_nil_r|] ]; done.
Qed.

(** X17.  [verifyOtp] calls the identity provider exactly once, with the
    submitted [uid], when it answers success, and never when it answers
    an error. *)
Theorem verifyOtp_auth_iff_verified env req w :
  exists resp new st',
    verifyOtp env req w = (Ok resp, mkWorld st' (calls w ++ new)) /\
    List.filter is_auth new
    = match body resp with
      | VerifiedBody _ _ _ => [AuthUpdateUser (uid req)]
      | _ => []
      end.
Proof.
  destruct w as [st cs].
  unfold verifyOtp, verifyOtp_lookup, verifyOtp_check.
  run_handler; try absurd_lookup.
  all: name_outcome; cbn [body errorResponse json]; try done.
  all: back_to_req; done.
Qed.

(** ** The string form of the code *)

(** C10 (string coercion of the code).  The values concerned are JSON
    scalars, whose string form [toString] is JavaScript's.

    Issuance: with the mail delivered and a valid document id, the one
    write of [sendOtp] is the merge of [otp_fields], whose [otp] is the
    string [toString otp], and the record written then holds that string
    as its [otp], whatever the type of the submitted value.

    Verification: on a record with a pending code, not after expiry, the
    answer is success when the string forms of the stored and submitted
    codes are equal and Invalid otherwise; so it is success exactly when
    they are equal, whatever the types of the two values. *)
Theorem otp_string_coercion env req w a env2 req2 w2 id d stored e :
  truthy (email req) = true -> truthy (otp req) = true ->
  json_scalar (otp req) = true ->
  uid req = VStr a -> valid_doc_id a = true ->
  sendMail_error env = None ->
  well_formed req2 = true -> json_scalar (otp req2) = true ->
  resolved req2 w2 = Some (id, d) ->
  pending_code env2 d = Some (stored, e) -> json_scalar stored = true ->
  Date_now env2 <= e ->
  let issued := sendOtp env req w in
  let t := issue_target (users w) a in
  issued.1 = Ok OtpSent
  /\ (exists new,
        calls issued.2 = calls w ++ new /\
        List.filter is_write new = [DocSetMerge t (otp_fields env req)])
  /\ otp_fields env req !! "otp" = Some (VStr (toString (otp req)))
  /\ (exists d1,
        lookup_doc t (users issued.2) = Some d1 /\
        d1 !! "otp" = Some (VStr (toString (otp req))))
  /\ (verifyOtp env2 req2 w2).1
     = Ok (if String.eqb (toString stored) (toString (otp req2))
           then Verified req2
           else Invalid)
  /\ ((verifyOtp env2 req2 w2).1 = Ok (Verified req2)
      <-> toString stored = toString (otp req2)).
Proof.
  intros He Ho _ Hu Ha%valid_doc_id_nonempty Hm Hwf _ Hres Hp _ Hnow
    issued t.
  unfold issued. rewrite (sendOtp_issue_run env req w a) by done.
  cbn [fst snd users calls]. fold t.
  assert ((verifyOtp env2 req2 w2).1
          = Ok (if String.eqb (toString stored) (toString (otp req2))
                then Verified req2
                else Invalid)) as Hv.
  { rewrite (verifyOtp_pending_run env2 req2 w2 id d stored e) by done.
    cbv zeta. destruct (e <? Date_now env2) eqn:E; [lia|].
    by destruct (String.eqb _ _). }
  split_and!.
  - done.
  - eexists. split; [done|].
    unfold issue_lookups. by destruct (lookup_doc a (users w)).
  - apply otp_fields_otp.
  - rewrite lookup_merge_doc, String.eqb_refl. eexists. split; [done|].
    destruct (lookup_doc t (users w)).
    + apply lookup_union_Some_l, otp_fields_otp.
    + apply otp_fields_otp.
  - done.
  - rewrite Hv. destruct (String.eqb _ _) eqn:E.
    + apply String.eqb_eq in E. done.
    + apply String.eqb_neq in E. split; [done|]. intros; done.
Qed.

Lemma otp_string_coercion_witness :
  lookup_doc "u1" (users (sendOtp env0 req_number w0).2)
  = Some (otp_fields env0 req_number ∪ alice)
  /\ otp_fields env0 req_number !! "otp" = Some (VStr "123456")
  /\ (verifyOtp env0 req_number w_pending).1 = Ok (Verified req_number)
  /\ (verifyOtp env0 req_wrong w_pending).1 = Ok Invalid.
Proof.
  assert (Date_now env0 <= 1300000) as Hnow by (cbn; lia).
  pose proof (otp_string_coercion env0 req_number w0 "u1" env0 req_number
                w_pending "u1" alice_pending (VStr "123456") 1300000
                eq_refl eq_refl eq_refl eq_refl eq_refl eq_refl
                eq_refl eq_refl eq_refl eq_refl eq_refl Hnow)
    as (_ & _ & H3 & _ & H5 & _).
  pose proof (otp_string_coercion env0 req_number w0 "u1" env0 req_wrong
                w_pending "u1" alice_pending (VStr "123456") 1300000
                eq_refl eq_refl eq_refl eq_refl eq_refl eq_refl
                eq_refl eq_refl eq_refl eq_refl eq_refl Hnow)
    as (_ & _ & _ & _ & H5' & _).
  split; [reflexivity|]. split; [exact H3|]. split; [exact H5|exact H5'].
Defined.
